(** * The Python fundamentals scripts, embedded in Rocq

    The repository holds three stand-alone scripts:
    [01_getting_started/hello.py], [02_basic_syntax/types_demo.py] and
    [02_basic_syntax/string_formatting.py].  Each one is a sequence of
    [print] calls over literals, f-strings and a few built-in operations.

    The development has three layers:
    - the part of the Python runtime the scripts call (text, integers,
      binary64 floats, the format-spec mini-language, [datetime],
      [Decimal]), written as executable functions;
    - the scripts themselves, statement by statement, in a monad that
      records what is written to standard output and which exception, if
      any, ends the run;
    - the properties of the scripts. *)

From Stdlib Require Import ZArith NArith String Ascii List Bool Lia.
From Stdlib Require Import Floats.SpecFloat.
Import ListNotations.

Local Open Scope Z_scope.

(* ===================================================================== *)
(** * Text *)
(* ===================================================================== *)

(** A Python [str] is a sequence of Unicode code points. *)
Definition char := N.
Definition str := list char.

(** The bytes of a Rocq string literal. *)
Fixpoint bytes_of (s : string) : list N :=
  match s with
  | EmptyString => []
  | String c s' => N_of_ascii c :: bytes_of s'
  end.

(** The escape sequences of Python string literals that the scripts use:
    backslash-n and backslash-r.  Any other byte stands for itself. *)
Fixpoint unescape (bs : list N) : list N :=
  match bs with
  | [] => []
  | b :: rest =>
      match rest with
      | c :: rest' =>
          if (b =? 92)%N && (c =? 110)%N then 10%N :: unescape rest'
          else if (b =? 92)%N && (c =? 114)%N then 13%N :: unescape rest'
          else b :: unescape rest
      | [] => [b]
      end
  end.

(** UTF-8 decoding: the scripts are UTF-8 source files and some literals
    hold box-drawing and block characters. *)
Fixpoint utf8_decode (bs : list N) : str :=
  match bs with
  | [] => []
  | b :: rest =>
      if (b <? 128)%N then b :: utf8_decode rest
      else if (b <? 224)%N then
        match rest with
        | b1 :: r1 => ((b mod 32) * 64 + b1 mod 64)%N :: utf8_decode r1
        | _ => [b]
        end
      else if (b <? 240)%N then
        match rest with
        | b1 :: b2 :: r2 =>
            ((b mod 16) * 4096 + (b1 mod 64) * 64 + b2 mod 64)%N :: utf8_decode r2
        | _ => [b]
        end
      else
        match rest with
        | b1 :: b2 :: b3 :: r3 =>
            ((b mod 8) * 262144 + (b1 mod 64) * 4096 + (b2 mod 64) * 64 + b3 mod 64)%N
              :: utf8_decode r3
        | _ => [b]
        end
  end.

(** [u "..."] is the [str] a Python literal with the same text denotes. *)
Definition u (s : string) : str := utf8_decode (unescape (bytes_of s)).

Definition str_eqb (a b : str) : bool :=
  if list_eq_dec N.eq_dec a b then true else false.

(** [len(s)] *)
Definition len {A : Type} (l : list A) : Z := Z.of_nat (List.length l).

(** [s * n]: repetition; a count below one gives the empty text. *)
Definition str_mul (s : str) (n : Z) : str := concat (repeat s (Z.to_nat n)).

(** [s.upper()] and [s.lower()], on the ASCII letters. *)
Definition upper_char (c : char) : char :=
  if ((97 <=? c) && (c <=? 122))%N then (c - 32)%N else c.
Definition lower_char (c : char) : char :=
  if ((65 <=? c) && (c <=? 90))%N then (c + 32)%N else c.
Definition upper (s : str) : str := map upper_char s.
Definition lower (s : str) : str := map lower_char s.

(* ===================================================================== *)
(** * Outcomes and exceptions *)
(* ===================================================================== *)

Inductive exn :=
| ZeroDivisionError
| IndexError
| ValueError
| TypeError
| OverflowError
| KeyError
| InvalidOperation.

Inductive result (A : Type) :=
| Ok (a : A)
| Raise (e : exn).
Arguments Ok {A} a.
Arguments Raise {A} e.

Class Monad (m : Type -> Type) := {
  ret : forall {A}, A -> m A;
  bind : forall {A B}, m A -> (A -> m B) -> m B
}.

Declare Scope py_scope.
Delimit Scope py_scope with py.
Notation "x <- c ;; k" := (bind c (fun x => k))
  (at level 61, c at next level, right associativity) : py_scope.
Notation "' pat <- c ;; k" := (bind c (fun x => match x with pat => k end))
  (at level 61, pat pattern, c at next level, right associativity) : py_scope.
Notation "c ;; k" := (bind c (fun _ => k))
  (at level 61, right associativity) : py_scope.
Local Open Scope py_scope.

#[export] Instance Monad_result : Monad result := {
  ret := fun A a => Ok a;
  bind := fun A B c k => match c with Ok a => k a | Raise e => Raise e end
}.

(* ===================================================================== *)
(** * Integers *)
(* ===================================================================== *)

(** Python's [int] is unbounded: [Z]. *)

(** [a // b] and [a % b]: floor division; the remainder takes the sign of
    the divisor, as [Z.div] and [Z.modulo] do. *)
Definition floordiv (a b : Z) : result Z :=
  if b =? 0 then Raise ZeroDivisionError else Ok (a / b).
Definition mod_ (a b : Z) : result Z :=
  if b =? 0 then Raise ZeroDivisionError else Ok (a mod b).

(** Digits in a base up to sixteen, most significant first. *)
Definition digit_char (upper_case : bool) (d : Z) : char :=
  if d <? 10 then Z.to_N (48 + d)
  else if upper_case then Z.to_N (55 + d) else Z.to_N (87 + d).

Fixpoint digits_loop (fuel : nat) (base : Z) (up : bool) (n : Z) (acc : str) : str :=
  match fuel with
  | O => acc
  | S fuel' =>
      let acc' := digit_char up (n mod base) :: acc in
      if n <? base then acc' else digits_loop fuel' base up (n / base) acc'
  end.

(** The digits of [n >= 0]; [Z.log2 n + 1] steps always suffice. *)
Definition digits_base (base : Z) (up : bool) (n : Z) : str :=
  digits_loop (S (Z.to_nat (Z.log2 n))) base up n [].

Definition digits (n : Z) : str := digits_base 10 false n.

(** [str(n)] and [repr(n)] for an [int]. *)
Definition int_str (n : Z) : str :=
  if n <? 0 then u "-" ++ digits (- n) else digits n.

(** [bin(n)], [oct(n)], [hex(n)] *)
Definition with_prefix (p : string) (base : Z) (n : Z) : str :=
  if n <? 0 then u "-" ++ u p ++ digits_base base false (- n)
  else u p ++ digits_base base false n.
Definition bin (n : Z) : str := with_prefix "0b" 2 n.
Definition oct (n : Z) : str := with_prefix "0o" 8 n.
Definition hex (n : Z) : str := with_prefix "0x" 16 n.

(** Reading digits back: [Some] value when [s] is a non-empty run of
    decimal digits. *)
Definition is_digit (c : char) : bool := ((48 <=? c) && (c <=? 57))%N.

Fixpoint digits_value (acc : Z) (s : str) : option Z :=
  match s with
  | [] => Some acc
  | c :: s' =>
      if is_digit c then digits_value (10 * acc + (Z.of_N c - 48)) s' else None
  end.

Definition parse_digits (s : str) : option Z :=
  match s with
  | [] => None
  | _ => digits_value 0 s
  end.

(** Leading and trailing white space, which [int()] and [float()] drop. *)
Definition is_space (c : char) : bool :=
  ((c =? 32) || ((9 <=? c) && (c <=? 13)))%N.

Fixpoint lstrip (s : str) : str :=
  match s with
  | c :: s' => if is_space c then lstrip s' else s
  | [] => []
  end.
Definition strip (s : str) : str := rev (lstrip (rev (lstrip s))).

(** An optional sign in front of [s]: is it negative, and the rest. *)
Definition split_sign (s : str) : bool * str :=
  match s with
  | c :: s' =>
      if (c =? 45)%N then (true, s')
      else if (c =? 43)%N then (false, s')
      else (false, s)
  | [] => (false, [])
  end.

(** [int(s)] for a text in base ten: optional white space and sign, then
    digits.  (Digit-group underscores are not modelled.) *)
Definition int_of_str (s : str) : result Z :=
  let '(neg, body) := split_sign (strip s) in
  match parse_digits body with
  | Some n => Ok (if neg then - n else n)
  | None => Raise ValueError
  end.

(* ===================================================================== *)
(** * Floats *)
(* ===================================================================== *)

(** Python's [float] is IEEE 754 binary64.  The operations are those of
    the standard library's executable specification, at precision 53 and
    maximal exponent 1024, all rounding to nearest, ties to even. *)
Definition float := spec_float.
Definition prec : Z := 53.
Definition emax : Z := 1024.

Definition fadd : float -> float -> float := SFadd prec emax.
Definition fsub : float -> float -> float := SFsub prec emax.
Definition fmul : float -> float -> float := SFmul prec emax.
Definition fneg : float -> float := SFopp.
Definition feqb : float -> float -> bool := SFeqb.
Definition fltb : float -> float -> bool := SFltb.

(** The float nearest to the positive fraction [n / d], with sign [neg]. *)
Definition float_of_ratio (neg : bool) (n d : Z) : float :=
  let '(mz, ez, lz) := SFdiv_core_binary prec emax n 0 d 0 in
  binary_round_aux prec emax neg mz ez lz.

(** The float nearest to [m * 10^e10] for [m >= 0]; this is what a decimal
    literal and [float(text)] denote. *)
Definition float_of_decimal (neg : bool) (m e10 : Z) : float :=
  if m =? 0 then S754_zero neg
  else if 0 <=? e10 then float_of_ratio neg (m * 10 ^ e10) 1
  else float_of_ratio neg m (10 ^ (- e10)).

(** [float(n)] for an [int], as the mixed operators apply it. *)
Definition float_of_int (n : Z) : result float :=
  match binary_normalize prec emax n 0 false with
  | S754_infinity _ => Raise OverflowError
  | x => Ok x
  end.

(** [a / b] on two [int]s: the correctly rounded quotient. *)
Definition truediv (a b : Z) : result float :=
  if b =? 0 then Raise ZeroDivisionError
  else if a =? 0 then Ok (S754_zero (b <? 0))
  else
    match float_of_ratio (xorb (a <? 0) (b <? 0)) (Z.abs a) (Z.abs b) with
    | S754_infinity _ => Raise OverflowError
    | x => Ok x
    end.

(** [int(x)]: the integer part, dropping the fraction. *)
Definition int_of_float (x : float) : result Z :=
  match x with
  | S754_nan => Raise ValueError
  | S754_infinity _ => Raise OverflowError
  | S754_zero _ => Ok 0
  | S754_finite s m e =>
      let v := if 0 <=? e then Zpos m * 2 ^ e else Zpos m / 2 ^ (- e) in
      Ok (if s then - v else v)
  end.

(** Numbers of either kind, for the variables that hold an [int] at one
    time and a [float] at another. *)
Inductive number :=
| Int (n : Z)
| Float (x : float).

(** [+] and [*] on numbers: exact on two [int]s; otherwise the [int]
    operand becomes a float first. *)
Definition to_float (a : number) : result float :=
  match a with
  | Int n => float_of_int n
  | Float x => Ok x
  end.

Definition arith (fi : Z -> Z -> Z) (ff : float -> float -> float)
    (a b : number) : result number :=
  match a, b with
  | Int m, Int n => Ok (Int (fi m n))
  | _, _ => x <- to_float a ;; y <- to_float b ;; ret (Float (ff x y))
  end.
Definition nadd : number -> number -> result number := arith Z.add fadd.
Definition nmul : number -> number -> result number := arith Z.mul fmul.

(** Exact comparison of a float with an [int]; [None] for a NaN. *)
Definition compare_float_int (x : float) (n : Z) : option comparison :=
  match x with
  | S754_nan => None
  | S754_infinity s => Some (if s then Lt else Gt)
  | S754_zero _ => Some (0 ?= n)
  | S754_finite s m e =>
      let v := if s then Zneg m else Zpos m in
      Some (if 0 <=? e then v * 2 ^ e ?= n else v ?= n * 2 ^ (- e))
  end.

Definition ncompare (a b : number) : option comparison :=
  match a, b with
  | Int m, Int n => Some (m ?= n)
  | Float x, Float y => SFcompare x y
  | Float x, Int n => compare_float_int x n
  | Int m, Float y => option_map CompOpp (compare_float_int y m)
  end.

(** [a > b] *)
Definition ngt (a b : number) : bool :=
  match ncompare a b with Some Gt => true | _ => false end.

(** ** Reading decimal text *)

Fixpoint span_digits (s : str) : str * str :=
  match s with
  | c :: s' =>
      if is_digit c then let '(d, r) := span_digits s' in (c :: d, r)
      else ([], s)
  | [] => ([], [])
  end.

Definition digits_or_zero (s : str) : Z :=
  match digits_value 0 s with Some n => n | None => 0 end.

(** The exponent part: empty, or [e] or [E], an optional sign and digits. *)
Definition parse_exponent (s : str) : option Z :=
  match s with
  | [] => Some 0
  | c :: s' =>
      if ((c =? 101) || (c =? 69))%N then
        let '(neg, ds) := split_sign s' in
        match parse_digits ds with
        | Some n => Some (if neg then - n else n)
        | None => None
        end
      else None
  end.

(** [float(s)]: [inf], [infinity] and [nan] in any case, or digits with an
    optional fraction and exponent. *)
Definition float_of_str (s : str) : result float :=
  let '(neg, body) := split_sign (strip s) in
  let low := lower body in
  if str_eqb low (u "inf") || str_eqb low (u "infinity") then Ok (S754_infinity neg)
  else if str_eqb low (u "nan") then Ok S754_nan
  else
    let '(ip, r1) := span_digits body in
    let '(fp, r2) :=
      match r1 with
      | c :: r => if (c =? 46)%N then span_digits r else ([], r1)
      | [] => ([], [])
      end in
    match ip ++ fp, parse_exponent r2 with
    | [], _ => Raise ValueError
    | _, None => Raise ValueError
    | ds, Some e => Ok (float_of_decimal neg (digits_or_zero ds) (e - len fp))
    end.

(** A float literal of the source. *)
Definition flit (s : string) : float :=
  match float_of_str (u s) with
  | Ok x => x
  | Raise _ => S754_nan
  end.

(** ** Writing decimal text *)

(** The exact value of a finite float is [m * 2^e], the fraction
    [fnum / fden]. *)
Definition fnum (m : positive) (e : Z) : Z := if 0 <=? e then Zpos m * 2 ^ e else Zpos m.
Definition fden (e : Z) : Z := if 0 <=? e then 1 else 2 ^ (- e).

(** [n / d] rounded to the nearest integer, ties to even ([n >= 0 < d]). *)
Definition round_half_even (n d : Z) : Z :=
  let q := n / d in
  let r := n mod d in
  match 2 * r ?= d with
  | Lt => q
  | Gt => q + 1
  | Eq => if Z.even q then q else q + 1
  end.

(** [n * 10^k] as a fraction, [k] of either sign. *)
Definition scale10 (n d k : Z) : Z * Z :=
  if 0 <=? k then (n * 10 ^ k, d) else (n, d * 10 ^ (- k)).

(** The decimal exponent of a positive fraction: the [k] with
    [10^k <= n/d < 10^(k+1)]. *)
Fixpoint below_one (fuel : nat) (n d j : Z) : Z :=
  match fuel with
  | O => - j
  | S fuel' => if d <=? n * 10 ^ j then - j else below_one fuel' n d (j + 1)
  end.

Definition exponent10 (n d : Z) : Z :=
  if d <=? n then len (digits (n / d)) - 1
  else below_one (S (Z.to_nat (Z.log2 d))) n d 1.

(** Left-pad a digit string with zeros up to [w] digits. *)
Definition zfill (w : Z) (s : str) : str := str_mul (u "0") (w - len s) ++ s.

(** A float broken up for formatting: sign, integer digits, and what
    follows them (fraction, exponent, percent sign). *)
Record num_parts := { np_neg : bool; np_int : str; np_rest : str }.

Definition special_parts (x : float) : num_parts :=
  match x with
  | S754_infinity s => {| np_neg := s; np_int := u "inf"; np_rest := [] |}
  | _ => {| np_neg := false; np_int := u "nan"; np_rest := [] |}
  end.

(** Presentation type [f] with [p] digits after the point: the exact value
    correctly rounded.  With no digit after it the point is dropped, unless
    the alternate form [alt] is asked for. *)
Definition fixed_parts (alt : bool) (x : float) (p : Z) : num_parts :=
  let mk neg q :=
    let ds := zfill (p + 1) (digits q) in
    let k := Z.to_nat (len ds - p) in
    {| np_neg := neg; np_int := firstn k ds;
       np_rest := if (p =? 0) && negb alt then [] else u "." ++ skipn k ds |} in
  match x with
  | S754_zero s => mk s 0
  | S754_finite s m e =>
      let '(n, d) := scale10 (fnum m e) (fden e) p in
      mk s (round_half_even n d)
  | _ => special_parts x
  end.

(** The exponent field of the [e] and [repr] forms: a sign and at least two
    digits. *)
Definition exp_field (k : Z) : str :=
  u "e" ++ (if k <? 0 then u "-" else u "+") ++ zfill 2 (digits (Z.abs k)).

(** Presentation type [e] with [p] digits after the point. *)
Definition sci_parts (alt : bool) (x : float) (p : Z) : num_parts :=
  let mk neg q k :=
    let ds := zfill (p + 1) (digits q) in
    {| np_neg := neg; np_int := firstn 1 ds;
       np_rest := (if (p =? 0) && negb alt then [] else u "." ++ skipn 1 ds)
                    ++ exp_field k |} in
  match x with
  | S754_zero s => mk s 0 0
  | S754_finite s m e =>
      let k := exponent10 (fnum m e) (fden e) in
      let '(n, d) := scale10 (fnum m e) (fden e) (p - k) in
      let q := round_half_even n d in
      if q =? 10 ^ (p + 1) then mk s (q / 10) (k + 1) else mk s q k
  | _ => special_parts x
  end.

(** ** [repr] of a float: the shortest digits that read back *)

(** Does the decimal [q * 10^e10] read back as the positive float [x]? *)
Definition reads_back (x : float) (q e10 : Z) : bool :=
  feqb (float_of_decimal false q e10) x.

(** The [n]-digit decimal nearest to [num/den] (whose decimal exponent is
    [k]) among those that read back as [x], if there is one. *)
Definition shortest_at (x : float) (num den k n : Z) : option (Z * Z) :=
  let e10 := k - n + 1 in
  let '(a, b) := scale10 num den (- e10) in
  let lo := a / b in
  let hi := lo + 1 in
  let nearest := round_half_even a b in
  match reads_back x lo e10, reads_back x hi e10 with
  | true, true => Some (nearest, e10)
  | true, false => Some (lo, e10)
  | false, true => Some (hi, e10)
  | false, false => None
  end.

Fixpoint shortest_loop (x : float) (num den k : Z) (ns : list nat) : option (Z * Z) :=
  match ns with
  | [] => None
  | n :: ns' =>
      match shortest_at x num den k (Z.of_nat n) with
      | Some r => Some r
      | None => shortest_loop x num den k ns'
      end
  end.

(** Seventeen significant digits always identify a binary64 value. *)
Definition shortest_digits (m : positive) (e : Z) : Z * Z :=
  let num := fnum m e in
  let den := fden e in
  let k := exponent10 num den in
  match shortest_loop (S754_finite false m e) num den k (seq 1 17) with
  | Some r => r
  | None => let '(a, b) := scale10 num den (16 - k) in (round_half_even a b, k - 16)
  end.

Fixpoint drop_zeros (s : str) : str :=
  match s with
  | c :: s' => if (c =? 48)%N then drop_zeros s' else s
  | [] => []
  end.
Definition strip_trailing_zeros (s : str) : str := rev (drop_zeros (rev s)).

(** The [repr] layout: plain notation when the decimal point falls within
    sixteen digits and no more than three zeros lead the fraction,
    exponent notation otherwise; a bare integer gets [.0]. *)
Definition repr_parts (x : float) : num_parts :=
  match x with
  | S754_zero s => {| np_neg := s; np_int := u "0"; np_rest := u ".0" |}
  | S754_finite s m e =>
      let '(q, e10) := shortest_digits m e in
      let ds := strip_trailing_zeros (digits q) in
      let decpt := len (digits q) + e10 in
      if (decpt <=? -4) || (16 <? decpt) then
        {| np_neg := s; np_int := firstn 1 ds;
           np_rest := (match skipn 1 ds with [] => [] | fr => u "." ++ fr end)
                        ++ exp_field (decpt - 1) |}
      else if decpt <=? 0 then
        {| np_neg := s; np_int := u "0";
           np_rest := u "." ++ str_mul (u "0") (- decpt) ++ ds |}
      else if len ds <=? decpt then
        {| np_neg := s; np_int := ds ++ str_mul (u "0") (decpt - len ds);
           np_rest := u ".0" |}
      else
        {| np_neg := s; np_int := firstn (Z.to_nat decpt) ds;
           np_rest := u "." ++ skipn (Z.to_nat decpt) ds |}
  | _ => special_parts x
  end.

Definition parts_str (p : num_parts) : str :=
  (if np_neg p then u "-" else []) ++ np_int p ++ np_rest p.

(** [repr(x)] and [str(x)] for a float. *)
Definition float_repr (x : float) : str := parts_str (repr_parts x).

(** [round(x, nd)] for [nd >= 0]: the decimal with [nd] places nearest to
    the exact value, read back as a float. *)
Definition round_ (x : float) (nd : Z) : float :=
  match x with
  | S754_finite s m e =>
      let '(n, d) := scale10 (fnum m e) (fden e) nd in
      float_of_decimal s (round_half_even n d) (- nd)
  | _ => x
  end.

(* ===================================================================== *)
(** * The format-spec mini-language *)
(* ===================================================================== *)

(** A spec reads [[[fill]align][sign][#][0][width][,|_][.precision][type]].
    Modelled: everything the scripts use, that is the four alignments with
    a fill character, the three signs, [#], the [0] flag, width, the two
    separators, precision, and the presentation types [s], [d], [b], [o],
    [x], [X], [f], [e] and [%].  Not modelled: the other types ([c], [n],
    [g], [G], [E], [F]), the [z] flag, and a float with a precision or [#]
    but no type (all refused with [ValueError]), and a separator together
    with [0]-padding (padded after grouping). *)

Inductive align_t := AlLeft | AlRight | AlCenter | AlPad.

Record format_spec := {
  fs_fill : char;
  fs_align : option align_t;
  fs_sign : option char;
  fs_alt : bool;
  fs_width : option Z;
  fs_sep : option char;
  fs_prec : option Z;
  fs_type : option char
}.

Definition align_of (c : char) : option align_t :=
  if (c =? 60)%N then Some AlLeft
  else if (c =? 62)%N then Some AlRight
  else if (c =? 94)%N then Some AlCenter
  else if (c =? 61)%N then Some AlPad
  else None.

Definition is_sign (c : char) : bool := ((c =? 43) || (c =? 45) || (c =? 32))%N.

(** An optional leading character satisfying [p]. *)
Definition take_if (p : char -> bool) (s : str) : option char * str :=
  match s with
  | c :: s' => if p c then (Some c, s') else (None, s)
  | [] => (None, [])
  end.

Definition take_number (s : str) : option Z * str :=
  let '(ds, r) := span_digits s in (parse_digits ds, r).

(** [default_right] tells whether the value is a number, whose default
    alignment is to the right: only then does the [0] flag imply [=]. *)
Definition parse_spec (default_right : bool) (s : str) : result format_spec :=
  let '(fill, align, s1) :=
    match s with
    | f :: a :: r =>
        match align_of a, align_of f with
        | Some al, _ => (Some f, Some al, r)
        | None, Some al => (None, Some al, a :: r)
        | None, None => (None, None, s)
        end
    | [a] => match align_of a with Some al => (None, Some al, []) | None => (None, None, s) end
    | [] => (None, None, [])
    end in
  let '(sign, s2) := take_if is_sign s1 in
  let '(alt, s3) := take_if (N.eqb 35) s2 in
  let '(zero, s4) :=
    match fill with
    | None => take_if (N.eqb 48) s3
    | Some _ => (None, s3)
    end in
  let '(width, s5) := take_number s4 in
  let '(sep, s6) := take_if (fun c => (c =? 44) || (c =? 95))%N s5 in
  let '(dot, s7) := take_if (N.eqb 46) s6 in
  let '(prec, s8) :=
    match dot with
    | Some _ => take_number s7
    | None => (None, s7)
    end in
  match dot, prec, s8 with
  | Some _, None, _ => Raise ValueError
  | _, _, _ :: _ :: _ => Raise ValueError
  | _, _, _ =>
      Ok {| fs_fill := match fill, zero with
                       | Some f, _ => f
                       | None, Some z => z
                       | None, None => 32%N
                       end;
            fs_align := match align, zero with
                        | Some al, _ => Some al
                        | None, Some _ => if default_right then Some AlPad else None
                        | None, None => None
                        end;
            fs_sign := sign;
            fs_alt := match alt with Some _ => true | None => false end;
            fs_width := width;
            fs_sep := sep;
            fs_prec := prec;
            fs_type := match s8 with c :: _ => Some c | [] => None end |}
  end.

(** Padding to the field width. *)
Definition pad (sp : format_spec) (default : align_t) (head body : str) : str :=
  let w := match fs_width sp with Some w => w | None => 0 end in
  let n := Z.max 0 (w - len head - len body) in
  let fill k := str_mul [fs_fill sp] k in
  match match fs_align sp with Some a => a | None => default end with
  | AlLeft => head ++ body ++ fill n
  | AlRight => fill n ++ head ++ body
  | AlCenter => fill (n / 2) ++ head ++ body ++ fill (n - n / 2)
  | AlPad => head ++ fill n ++ body
  end.

(** [format(s, spec)] for text. *)
Definition format_str (s : str) (spec : str) : result str :=
  sp <- parse_spec false spec ;;
  match fs_sign sp, fs_alt sp, fs_align sp, fs_sep sp, fs_type sp with
  | Some _, _, _, _, _ => Raise ValueError
  | _, true, _, _, _ => Raise ValueError
  | _, _, Some AlPad, _, _ => Raise ValueError
  | _, _, _, Some _, _ => Raise ValueError
  | None, false, _, None, ty =>
      if match ty with Some c => (c =? 115)%N | None => true end then
        let body := match fs_prec sp with
                    | Some p => firstn (Z.to_nat p) s
                    | None => s
                    end in
        Ok (pad sp AlLeft [] body)
      else Raise ValueError
  end.

(** A separator every [k] digits, counting from the right. *)
Fixpoint group_rev (k : nat) (sep : char) (i : nat) (rs : str) : str :=
  match rs with
  | [] => []
  | c :: rs' =>
      match i with
      | O => sep :: c :: group_rev k sep (k - 1) rs'
      | S i' => c :: group_rev k sep i' rs'
      end
  end.
Definition group (k : nat) (sep : char) (ds : str) : str :=
  rev (group_rev k sep k (rev ds)).

(** The sign shown in front of a number. *)
Definition sign_str (sp : format_spec) (neg : bool) : str :=
  if neg then u "-"
  else match fs_sign sp with
       | Some c => if (c =? 45)%N then [] else [c]
       | None => []
       end.

Definition type_is (sp : format_spec) (t : string) : bool :=
  match fs_type sp with
  | Some c => str_eqb [c] (u t)
  | None => false
  end.

(** Integer presentation types. *)
Definition format_int_spec (sp : format_spec) (n : Z) : result str :=
  let neg := n <? 0 in
  let a := Z.abs n in
  let out (prefix ds : str) :=
    Ok (pad sp AlRight (sign_str sp neg ++ (if fs_alt sp then prefix else [])) ds) in
  let sep3 ds := match fs_sep sp with Some c => group 3 c ds | None => ds end in
  let sep4 (ds : str) : result str :=
    match fs_sep sp with
    | Some c => if (c =? 95)%N then Ok (group 4 c ds) else Raise ValueError
    | None => Ok ds
    end in
  match fs_prec sp with
  | Some _ => Raise ValueError
  | None =>
      if match fs_type sp with None => true | Some _ => type_is sp "d" end then
        Ok (pad sp AlRight (sign_str sp neg) (sep3 (digits a)))
      else if type_is sp "b" then ds <- sep4 (digits_base 2 false a) ;; out (u "0b") ds
      else if type_is sp "o" then ds <- sep4 (digits_base 8 false a) ;; out (u "0o") ds
      else if type_is sp "x" then ds <- sep4 (digits_base 16 false a) ;; out (u "0x") ds
      else if type_is sp "X" then ds <- sep4 (digits_base 16 true a) ;; out (u "0X") ds
      else Raise ValueError
  end.

(** Float presentation types. *)
Definition format_float_spec (sp : format_spec) (x : float) : result str :=
  let p := match fs_prec sp with Some p => p | None => 6 end in
  let out (parts : num_parts) (tail : str) : result str :=
    let ds := match fs_sep sp with
              | Some c => group 3 c (np_int parts)
              | None => np_int parts
              end in
    Ok (pad sp AlRight (sign_str sp (np_neg parts)) (ds ++ np_rest parts ++ tail)) in
  let alt := fs_alt sp in
  match fs_type sp with
  | None =>
      match fs_prec sp, alt with
      | None, false => out (repr_parts x) []
      | _, _ => Raise ValueError
      end
  | Some _ =>
      if type_is sp "f" then out (fixed_parts alt x p) []
      else if type_is sp "e" then out (sci_parts alt x p) []
      else if type_is sp "%" then out (fixed_parts alt (fmul x (flit "100")) p) (u "%")
      else Raise ValueError
  end.

Definition is_float_type (sp : format_spec) : bool :=
  type_is sp "f" || type_is sp "e" || type_is sp "%".

(** [format(x, spec)] for a float; the empty spec gives [str(x)]. *)
Definition format_float (x : float) (spec : str) : result str :=
  sp <- parse_spec true spec ;; format_float_spec sp x.

(** [format(n, spec)] for an [int]; a float presentation type converts the
    value first. *)
Definition format_int (n : Z) (spec : str) : result str :=
  sp <- parse_spec true spec ;;
  if is_float_type sp then x <- float_of_int n ;; format_float_spec sp x
  else format_int_spec sp n.

(** [format(b, spec)] for a [bool]: its name under the empty spec, the
    integer 0 or 1 otherwise. *)
Definition bool_str (b : bool) : str := if b then u "True" else u "False".
Definition format_bool (b : bool) (spec : str) : result str :=
  match spec with
  | [] => Ok (bool_str b)
  | _ => format_int (if b then 1 else 0) spec
  end.

(** [object.__format__]: only the empty spec is accepted. *)
Definition format_object (s : str) (spec : str) : result str :=
  match spec with
  | [] => Ok s
  | _ => Raise TypeError
  end.

(* ===================================================================== *)
(** * Sequences: indexing and slicing *)
(* ===================================================================== *)

(** [l[i]]: a negative index counts from the end; outside the sequence
    the access raises [IndexError]. *)
Definition getitem {A : Type} (l : list A) (i : Z) : result A :=
  let j := if i <? 0 then i + len l else i in
  if j <? 0 then Raise IndexError
  else match nth_error l (Z.to_nat j) with
       | Some a => Ok a
       | None => Raise IndexError
       end.

(** One bound of a slice, clipped to the sequence. *)
Definition clip (n step : Z) (bound : option Z) (default : Z) : Z :=
  match bound with
  | None => default
  | Some b =>
      let b' := if b <? 0 then b + n else b in
      if b' <? 0 then (if step <? 0 then -1 else 0)
      else if n <=? b' then (if step <? 0 then n - 1 else n)
      else b'
  end.

(** [l[start:stop:step]]; bounds never fail, a zero step does. *)
Definition slice {A : Type} (l : list A) (start stop step : option Z) : result (list A) :=
  let st := match step with Some k => k | None => 1 end in
  let n := len l in
  if st =? 0 then Raise ValueError
  else
    let lo := clip n st start (if st <? 0 then n - 1 else 0) in
    let hi := clip n st stop (if st <? 0 then -1 else n) in
    let count :=
      if st <? 0 then (if hi <? lo then (lo - hi - 1) / (- st) + 1 else 0)
      else (if lo <? hi then (hi - lo - 1) / st + 1 else 0) in
    Ok (flat_map
          (fun i => match nth_error l (Z.to_nat (lo + Z.of_nat i * st)) with
                    | Some a => [a]
                    | None => []
                    end)
          (seq 0 (Z.to_nat count))).

(** [range(start, stop, step)] *)
Definition range (start stop step : Z) : result (list Z) :=
  if step =? 0 then Raise ValueError
  else
    let count :=
      if step <? 0 then (if stop <? start then (start - stop - 1) / (- step) + 1 else 0)
      else (if start <? stop then (stop - start - 1) / step + 1 else 0) in
    Ok (map (fun i => start + Z.of_nat i * step) (seq 0 (Z.to_nat count))).

Fixpoint join (sep : str) (parts : list str) : str :=
  match parts with
  | [] => []
  | [p] => p
  | p :: ps => p ++ sep ++ join sep ps
  end.

(* ===================================================================== *)
(** * Dynamically typed values *)
(* ===================================================================== *)

(** The literals that the truthiness demo puts side by side in one list. *)
#[local] Set Warnings "-register-all".
Inductive value :=
| VNone
| VBool (b : bool)
| VInt (n : Z)
| VFloat (x : float)
| VStr (s : str)
| VList (items : list value)
| VDict (entries : list (value * value)).

(** [repr] of a text: single quotes, unless the text holds a single quote
    and no double quote; the quote, the backslash and the control
    characters are escaped.  (Unprintable characters beyond ASCII are not
    modelled.) *)
Definition hex2 (c : char) : str := zfill 2 (digits_base 16 false (Z.of_N c)).

Definition escape_char (quote c : char) : str :=
  if ((c =? quote) || (c =? 92))%N then [92%N; c]
  else if (c =? 10)%N then [92%N; 110%N]
  else if (c =? 13)%N then [92%N; 114%N]
  else if (c =? 9)%N then [92%N; 116%N]
  else if ((c <? 32) || (c =? 127))%N then [92%N; 120%N] ++ hex2 c
  else [c].

Definition str_repr (s : str) : str :=
  let has q := existsb (N.eqb q) s in
  let quote := if has 39%N && negb (has 34%N) then 34%N else 39%N in
  [quote] ++ flat_map (escape_char quote) s ++ [quote].

Fixpoint repr (v : value) : str :=
  match v with
  | VNone => u "None"
  | VBool b => bool_str b
  | VInt n => int_str n
  | VFloat x => float_repr x
  | VStr s => str_repr s
  | VList items => u "[" ++ join (u ", ") (map repr items) ++ u "]"
  | VDict entries =>
      u "{" ++ join (u ", ") (map (fun kv => repr (fst kv) ++ u ": " ++ repr (snd kv)) entries)
        ++ u "}"
  end.

(** [str(v)]: a text is itself, anything else its [repr]. *)
Definition str_of (v : value) : str :=
  match v with
  | VStr s => s
  | _ => repr v
  end.

(** [bool(v)]: the truth value. *)
Definition truth (v : value) : bool :=
  match v with
  | VNone => false
  | VBool b => b
  | VInt n => negb (n =? 0)
  | VFloat x => negb (feqb x (S754_zero false))
  | VStr s => negb (len s =? 0)
  | VList items => negb (len items =? 0)
  | VDict entries => negb (len entries =? 0)
  end.

Definition format_value (v : value) (spec : str) : result str :=
  match v with
  | VBool b => format_bool b spec
  | VInt n => format_int n spec
  | VFloat x => format_float x spec
  | VStr s => format_str s spec
  | _ => format_object (repr v) spec
  end.

(* ===================================================================== *)
(** * [datetime] *)
(* ===================================================================== *)

Record datetime := {
  year : Z; month : Z; day : Z;
  hour : Z; minute : Z; second : Z; microsecond : Z
}.

Definition is_leap (y : Z) : bool :=
  (y mod 4 =? 0) && (negb (y mod 100 =? 0) || (y mod 400 =? 0)).

Definition days_before_year (y : Z) : Z :=
  let p := y - 1 in p * 365 + p / 4 - p / 100 + p / 400.

Definition days_before_month (y m : Z) : Z :=
  nth (Z.to_nat (m - 1)) [0; 31; 59; 90; 120; 151; 181; 212; 243; 273; 304; 334] 0
  + (if (2 <? m) && is_leap y then 1 else 0).

Definition toordinal (d : datetime) : Z :=
  days_before_year (year d) + days_before_month (year d) (month d) + day d.

(** Monday is 0. *)
Definition weekday (d : datetime) : Z := (toordinal d + 6) mod 7.

Definition month_names : list string :=
  ["January"; "February"; "March"; "April"; "May"; "June"; "July";
   "August"; "September"; "October"; "November"; "December"]%string.
Definition day_names : list string :=
  ["Monday"; "Tuesday"; "Wednesday"; "Thursday"; "Friday"; "Saturday"; "Sunday"]%string.

(** One [strftime] directive, in the C locale.  A directive the scripts do
    not use is copied as it stands. *)
Definition directive (d : datetime) (c : char) : str :=
  let two n := zfill 2 (int_str n) in
  if str_eqb [c] (u "Y") then zfill 4 (int_str (year d))
  else if str_eqb [c] (u "m") then two (month d)
  else if str_eqb [c] (u "d") then two (day d)
  else if str_eqb [c] (u "H") then two (hour d)
  else if str_eqb [c] (u "M") then two (minute d)
  else if str_eqb [c] (u "S") then two (second d)
  else if str_eqb [c] (u "B") then u (nth (Z.to_nat (month d - 1)) month_names EmptyString)
  else if str_eqb [c] (u "A") then u (nth (Z.to_nat (weekday d)) day_names EmptyString)
  else if str_eqb [c] (u "%") then [c]
  else [37%N; c].

Fixpoint strftime (d : datetime) (fmt : str) : str :=
  match fmt with
  | [] => []
  | c :: rest =>
      if (c =? 37)%N then
        match rest with
        | k :: rest' => directive d k ++ strftime d rest'
        | [] => [c]
        end
      else c :: strftime d rest
  end.

(** [str(d)]: the ISO form with a space between date and time. *)
Definition datetime_str (d : datetime) : str :=
  strftime d (u "%Y-%m-%d %H:%M:%S")
  ++ (if microsecond d =? 0 then [] else u "." ++ zfill 6 (int_str (microsecond d))).

(** [repr(d)]: the constructor call, without trailing zero seconds and
    microseconds. *)
Definition datetime_repr (d : datetime) : str :=
  let fields :=
    [year d; month d; day d; hour d; minute d]
    ++ (if microsecond d =? 0
        then (if second d =? 0 then [] else [second d])
        else [second d; microsecond d]) in
  u "datetime.datetime(" ++ join (u ", ") (map int_str fields) ++ u ")".

(** [format(d, spec)]: [strftime] unless the spec is empty. *)
Definition format_datetime (d : datetime) (spec : str) : result str :=
  match spec with
  | [] => Ok (datetime_str d)
  | _ => Ok (strftime d spec)
  end.

(* ===================================================================== *)
(** * [Decimal] *)
(* ===================================================================== *)

(** A finite decimal number: [(-1)^neg * coef * 10^exp].  The context is
    the default one: 28 significant digits, ties to even.  Infinities, NaNs
    and exponent limits are not modelled. *)
Record decimal := { d_neg : bool; d_coef : Z; d_exp : Z }.

Definition context_prec : Z := 28.

(** [Decimal(text)] *)
Definition decimal_of_str (s : str) : result decimal :=
  let '(neg, body) := split_sign (strip s) in
  let '(ip, r1) := span_digits body in
  let '(fp, r2) :=
    match r1 with
    | c :: r => if (c =? 46)%N then span_digits r else ([], r1)
    | [] => ([], [])
    end in
  match ip ++ fp, parse_exponent r2 with
  | [], _ => Raise InvalidOperation
  | _, None => Raise InvalidOperation
  | ds, Some e => Ok {| d_neg := neg; d_coef := digits_or_zero ds; d_exp := e - len fp |}
  end.

(** Rounding a result to the context precision. *)
Definition decimal_fix (d : decimal) : decimal :=
  let n := len (digits (d_coef d)) in
  if n <=? context_prec then d
  else
    let k := n - context_prec in
    {| d_neg := d_neg d; d_coef := round_half_even (d_coef d) (10 ^ k);
       d_exp := d_exp d + k |}.

Definition signed_coef (d : decimal) (e : Z) : Z :=
  let c := d_coef d * 10 ^ (d_exp d - e) in if d_neg d then - c else c.

(** [a + b] *)
Definition decimal_add (a b : decimal) : decimal :=
  let e := Z.min (d_exp a) (d_exp b) in
  let c := signed_coef a e + signed_coef b e in
  decimal_fix
    {| d_neg := if c =? 0 then d_neg a && d_neg b else c <? 0;
       d_coef := Z.abs c; d_exp := e |}.

(** [a == b]: equal as numbers. *)
Definition decimal_eqb (a b : decimal) : bool :=
  let e := Z.min (d_exp a) (d_exp b) in
  signed_coef a e =? signed_coef b e.

(** [str(d)]: plain notation while the exponent is not positive and at
    most six zeros would follow the point, scientific otherwise. *)
Definition decimal_str (d : decimal) : str :=
  let ds := digits (d_coef d) in
  let leftdigits := d_exp d + len ds in
  let dotplace := if (d_exp d <=? 0) && (-6 <? leftdigits) then leftdigits else 1 in
  let body :=
    if dotplace <=? 0 then u "0." ++ str_mul (u "0") (- dotplace) ++ ds
    else if len ds <=? dotplace then ds ++ str_mul (u "0") (dotplace - len ds)
    else firstn (Z.to_nat dotplace) ds ++ u "." ++ skipn (Z.to_nat dotplace) ds in
  let e := leftdigits - dotplace in
  (if d_neg d then u "-" else [])
  ++ body
  ++ (if e =? 0 then []
      else u "E" ++ (if e <? 0 then u "-" else u "+") ++ digits (Z.abs e)).

Definition decimal_repr (d : decimal) : str := u "Decimal('" ++ decimal_str d ++ u "')".

(** [format(d, spec)]; only the empty spec, which gives [str(d)], is
    modelled. *)
Definition format_decimal (d : decimal) (spec : str) : result str :=
  match spec with
  | [] => Ok (decimal_str d)
  | _ => Raise ValueError
  end.

(* ===================================================================== *)
(** * The object protocol *)
(* ===================================================================== *)

(** What [repr()], [str()], [format()] and [bool()] call on a value of a
    given type. *)
Class PyObject (A : Type) := {
  py_repr : A -> str;
  py_str : A -> str;
  py_format : A -> str -> result str;
  py_bool : A -> bool
}.

#[export] Instance PyObject_int : PyObject Z := {
  py_repr := int_str;
  py_str := int_str;
  py_format := format_int;
  py_bool := fun n => negb (n =? 0)
}.

#[export] Instance PyObject_float : PyObject float := {
  py_repr := float_repr;
  py_str := float_repr;
  py_format := format_float;
  py_bool := fun x => negb (feqb x (S754_zero false))
}.

#[export] Instance PyObject_number : PyObject number := {
  py_repr := fun a => match a with Int n => py_repr n | Float x => py_repr x end;
  py_str := fun a => match a with Int n => py_str n | Float x => py_str x end;
  py_format := fun a => match a with Int n => py_format n | Float x => py_format x end;
  py_bool := fun a => match a with Int n => py_bool n | Float x => py_bool x end
}.

#[export] Instance PyObject_bool : PyObject bool := {
  py_repr := bool_str;
  py_str := bool_str;
  py_format := format_bool;
  py_bool := fun b => b
}.

#[export] Instance PyObject_str : PyObject str := {
  py_repr := str_repr;
  py_str := fun s => s;
  py_format := format_str;
  py_bool := fun s => negb (len s =? 0)
}.

#[export] Instance PyObject_value : PyObject value := {
  py_repr := repr;
  py_str := str_of;
  py_format := format_value;
  py_bool := truth
}.

#[export] Instance PyObject_datetime : PyObject datetime := {
  py_repr := datetime_repr;
  py_str := datetime_str;
  py_format := format_datetime;
  py_bool := fun _ => true
}.

#[export] Instance PyObject_decimal : PyObject decimal := {
  py_repr := decimal_repr;
  py_str := decimal_str;
  py_format := format_decimal;
  py_bool := fun d => negb (d_coef d =? 0)
}.

(* ===================================================================== *)
(** * Running a script *)
(* ===================================================================== *)

(** What a run reads from its surroundings: the wall clock, through
    [datetime.now()], and the interpreter's version, through
    [sys.version_info]. *)
Record World := {
  now : datetime;
  version_info : Z * Z
}.

(** A piece of a script: given the world, the text it writes to standard
    output and how it ends.  After an exception nothing more is written. *)
Definition Py (A : Type) : Type := World -> str * result A.

#[export] Instance Monad_Py : Monad Py := {
  ret := fun A a _ => ([], Ok a);
  bind := fun A B c k w =>
    match c w with
    | (out, Ok a) => let '(out', r) := k a w in (out ++ out', r)
    | (out, Raise e) => (out, Raise e)
    end
}.

(** A built-in operation that may raise, inside a script. *)
Definition lift {A : Type} (r : result A) : Py A := fun _ => ([], r).

Definition datetime_now : Py datetime := fun w => ([], Ok (now w)).
Definition sys_version_info : Py (Z * Z) := fun w => ([], Ok (version_info w)).

(** [print(s, end=e)] and [print(s)] *)
Definition print_end (s e : str) : Py unit := fun _ => (s ++ e, Ok tt).
Definition print (s : str) : Py unit := print_end s (u "\n").

(** The text written and the outcome. *)
Definition stdout {A : Type} (c : Py A) (w : World) : str := fst (c w).
Definition outcome {A : Type} (c : Py A) (w : World) : result A := snd (c w).

(** The exit status of a script whose body is [c]: 0 unless an exception
    reaches the top level. *)
Definition exit_status (c : Py unit) (w : World) : Z :=
  match outcome c w with
  | Ok _ => 0
  | Raise _ => 1
  end.

(** [for x in xs: body] *)
Fixpoint for_ {A : Type} (xs : list A) (body : A -> Py unit) : Py unit :=
  match xs with
  | [] => ret tt
  | x :: xs' => body x ;; for_ xs' body
  end.

(** A [for] loop that updates a local variable, passed along as [s]. *)
Fixpoint for_fold {A S : Type} (xs : list A) (s : S) (body : S -> A -> Py S) : Py S :=
  match xs with
  | [] => ret s
  | x :: xs' => s' <- body s x ;; for_fold xs' s' body
  end.

(** ** f-strings *)

(** An f-string is a sequence of literal pieces and replacement fields;
    the fields are formatted left to right and the first failure ends the
    evaluation. *)
Inductive piece :=
| Lit (s : string)
| Fld (r : result str).

Fixpoint fstring (ps : list piece) : result str :=
  match ps with
  | [] => Ok []
  | Lit s :: ps' => rest <- fstring ps' ;; ret (u s ++ rest)
  | Fld r :: ps' => s <- r ;; rest <- fstring ps' ;; ret (s ++ rest)
  end.

(** The field [{a}] *)
Definition val {A : Type} `{PyObject A} (a : A) : piece := Fld (py_format a []).
(** The field [{a:spec}] *)
Definition fld {A : Type} `{PyObject A} (a : A) (spec : string) : piece :=
  Fld (py_format a (u spec)).
(** The field [{a:spec}] whose spec holds replacement fields itself *)
Definition fldn {A : Type} `{PyObject A} (a : A) (spec : list piece) : piece :=
  Fld (sp <- fstring spec ;; py_format a sp).
(** The field [{a!r}] *)
Definition rfld {A : Type} `{PyObject A} (a : A) : piece := Fld (Ok (py_repr a)).

(** [print(f"...")] *)
Definition printf (ps : list piece) : Py unit := s <- lift (fstring ps) ;; print s.

(** The field [{e}] for an expression [e] that may raise *)
Definition valr {A : Type} `{PyObject A} (r : result A) : piece :=
  Fld (a <- r ;; py_format a []).

(** The field [{e:spec}] for an expression [e] that may raise *)
Definition fldr {A : Type} `{PyObject A} (r : result A) (spec : string) : piece :=
  Fld (a <- r ;; py_format a (u spec)).

(** [print(f"...", end=e)] *)
Definition printf_end (ps : list piece) (e : str) : Py unit :=
  s <- lift (fstring ps) ;; print_end s e.

(** ** The older formatting styles *)

(** [fmt % args] with the directives [%s], [%d] and [%%], each without
    flags; other directives are not modelled and are refused. *)
Fixpoint percent_format (fmt : str) (args : list value) : result str :=
  match fmt with
  | [] => match args with [] => Ok [] | _ => Raise TypeError end
  | c :: rest =>
      if (c =? 37)%N then
        match rest with
        | k :: rest' =>
            if str_eqb [k] (u "%") then
              r <- percent_format rest' args ;; ret (k :: r)
            else
              match args with
              | [] => Raise TypeError
              | a :: args' =>
                  s <- (if str_eqb [k] (u "s") then Ok (str_of a)
                        else if str_eqb [k] (u "d") then
                          match a with
                          | VInt n => Ok (int_str n)
                          | VBool b => Ok (int_str (if b then 1 else 0))
                          | VFloat x => n <- int_of_float x ;; ret (int_str n)
                          | _ => Raise TypeError
                          end
                        else Raise ValueError) ;;
                  r <- percent_format rest' args' ;;
                  ret (s ++ r)
              end
        | [] => Raise ValueError
        end
      else r <- percent_format rest args ;; ret (c :: r)
  end.

(** [fmt.format] on positional and keyword arguments.  A replacement field is [{}], [{index}]
    or [{name}], with an optional [:spec]; doubled braces stand for one.
    Conversions, attribute and item access and nested fields are not
    modelled and are refused. *)
Inductive numbering := Undecided | Automatic (next : Z) | Manual.

Fixpoint assoc (k : str) (kw : list (str * value)) : option value :=
  match kw with
  | [] => None
  | (k', v) :: kw' => if str_eqb k k' then Some v else assoc k kw'
  end.

Fixpoint split_at (sep : char) (s : str) : str * option str :=
  match s with
  | [] => ([], None)
  | c :: s' =>
      if (c =? sep)%N then ([], Some s')
      else let '(a, b) := split_at sep s' in (c :: a, b)
  end.

Definition lookup_field (name : str) (st : numbering)
    (args : list value) (kwargs : list (str * value)) : result (value * numbering) :=
  match name with
  | [] =>
      match st with
      | Manual => Raise ValueError
      | Undecided => v <- getitem args 0 ;; ret (v, Automatic 1)
      | Automatic i =>
          match nth_error args (Z.to_nat i) with
          | Some v => Ok (v, Automatic (i + 1))
          | None => Raise IndexError
          end
      end
  | _ =>
      match parse_digits name with
      | Some i =>
          match st with
          | Automatic _ => Raise ValueError
          | _ =>
              match nth_error args (Z.to_nat i) with
              | Some v => Ok (v, Manual)
              | None => Raise IndexError
              end
          end
      | None =>
          if existsb (fun c => existsb (N.eqb c) (u "!.[]{")) name then Raise ValueError
          else match assoc name kwargs with
               | Some v => Ok (v, st)
               | None => Raise KeyError
               end
      end
  end.

Fixpoint format_scan (fmt : str) (field : option str) (st : numbering)
    (args : list value) (kwargs : list (str * value)) : result str :=
  match fmt with
  | [] => match field with None => Ok [] | Some _ => Raise ValueError end
  | c :: rest =>
      match field with
      | Some acc =>
          if (c =? 125)%N then
            let '(name, spec) := split_at 58%N (rev acc) in
            '(v, st') <- lookup_field name st args kwargs ;;
            s <- format_value v (match spec with Some sp => sp | None => [] end) ;;
            r <- format_scan rest None st' args kwargs ;;
            ret (s ++ r)
          else format_scan rest (Some (c :: acc)) st args kwargs
      | None =>
          if (c =? 123)%N then
            match rest with
            | c' :: rest' =>
                if (c' =? 123)%N
                then r <- format_scan rest' None st args kwargs ;; ret (c :: r)
                else format_scan rest (Some []) st args kwargs
            | [] => Raise ValueError
            end
          else if (c =? 125)%N then
            match rest with
            | c' :: rest' =>
                if (c' =? 125)%N
                then r <- format_scan rest' None st args kwargs ;; ret (c :: r)
                else Raise ValueError
            | [] => Raise ValueError
            end
          else r <- format_scan rest None st args kwargs ;; ret (c :: r)
      end
  end.

Definition str_format (fmt : str) (args : list value) (kwargs : list (str * value))
    : result str :=
  format_scan fmt None Undecided args kwargs.

(** ** Types as values *)

(** [type(x)] is printed by its name; [isinstance] follows the one
    subclass relation among the built-in types used here: a [bool] is an
    [int]. *)
Record pyclass := { class_name : string }.

Definition class_repr (c : pyclass) : str := u "<class '" ++ u (class_name c) ++ u "'>".

#[export] Instance PyObject_pyclass : PyObject pyclass := {
  py_repr := class_repr;
  py_str := class_repr;
  py_format := fun c => format_object (class_repr c);
  py_bool := fun _ => true
}.

Class Typed (A : Type) := { type : A -> pyclass }.
Definition int : pyclass := {| class_name := "int" |}.
#[export] Instance Typed_int : Typed Z := { type := fun _ => int }.
#[export] Instance Typed_bool : Typed bool := { type := fun _ => {| class_name := "bool" |} }.
#[export] Instance Typed_float : Typed float := { type := fun _ => {| class_name := "float" |} }.
#[export] Instance Typed_str : Typed str := { type := fun _ => {| class_name := "str" |} }.

Definition isinstance {A : Type} `{Typed A} (a : A) (c : pyclass) : bool :=
  let n := class_name (type a) in
  String.eqb n (class_name c)
  || (String.eqb n "bool" && String.eqb (class_name c) "int").

(* ===================================================================== *)
(** * [01_getting_started/hello.py] *)
(* ===================================================================== *)

Module hello.

(** [return f"Hello, {name}!"] *)
Definition greet (name : str) : result str :=
  fstring [Lit "Hello, "; val name; Lit "!"].

Definition main : Py unit :=
  print (u "Hello, World!") ;;
  print (u "Welcome to Python 3.14!") ;;
  let name := u "Python Learner" in
  message <- lift (greet name) ;;
  print message ;;
  let result := 2 + 2 in
  printf [Lit "2 + 2 = "; val result] ;;
  v <- sys_version_info ;;
  printf [Lit "\nYou are using Python "; val (fst v); Lit "."; val (snd v)].

End hello.

(* ===================================================================== *)
(** * [02_basic_syntax/types_demo.py] *)
(* ===================================================================== *)

Module types_demo.

Definition demo_integers : Py unit :=
  print (str_mul (u "=") 50) ;;
  print (u "INTEGER DEMONSTRATION") ;;
  print (str_mul (u "=") 50) ;;
  let a := 15 in
  let b := 4 in
  printf [Lit "\na = "; val a; Lit ", b = "; val b] ;;
  printf [Lit "Addition: "; val a; Lit " + "; val b; Lit " = "; val (a + b)] ;;
  printf [Lit "Subtraction: "; val a; Lit " - "; val b; Lit " = "; val (a - b)] ;;
  printf [Lit "Multiplication: "; val a; Lit " * "; val b; Lit " = "; val (a * b)] ;;
  printf [Lit "Division: "; val a; Lit " / "; val b; Lit " = "; valr (truediv a b)] ;;
  printf [Lit "Floor division: "; val a; Lit " // "; val b; Lit " = "; valr (floordiv a b)] ;;
  printf [Lit "Modulo: "; val a; Lit " % "; val b; Lit " = "; valr (mod_ a b)] ;;
  printf [Lit "Exponentiation: "; val a; Lit " ** "; val b; Lit " = "; val (a ^ b)] ;;
  let huge := 2 ^ 100 in
  printf [Lit "\n2^100 = "; val huge] ;;
  printf [Lit "Length: "; val (len (py_str huge)); Lit " digits"] ;;
  let binary := 10 (* 0b1010 *) in
  let octal := 10 (* 0o12 *) in
  let hexadec := 0xFF in
  printf [Lit "\nBinary 0b1010 = "; val binary] ;;
  printf [Lit "Octal 0o12 = "; val octal] ;;
  printf [Lit "Hexadecimal 0xFF = "; val hexadec].

Definition demo_floats : Py unit :=
  print (u "\n" ++ str_mul (u "=") 50) ;;
  print (u "FLOAT DEMONSTRATION") ;;
  print (str_mul (u "=") 50) ;;
  let pi := flit "3.14159" in
  let e := flit "2.71828" in
  printf [Lit "\nπ ≈ "; val pi] ;;
  printf [Lit "e ≈ "; val e] ;;
  let result := fadd (flit "0.1") (flit "0.2") in
  printf [Lit "\n0.1 + 0.2 = "; val result] ;;
  printf [Lit "Expected 0.3? "; val (feqb result (flit "0.3"))] ;;
  printf [Lit "Rounded: "; val (round_ result 1)] ;;
  d1 <- lift (decimal_of_str (u "0.1")) ;;
  d2 <- lift (decimal_of_str (u "0.2")) ;;
  printf [Lit "\nUsing Decimal: "; val d1; Lit " + "; val d2; Lit " = ";
          val (decimal_add d1 d2)] ;;
  printf [Lit "Exact? ";
          valr (d3 <- decimal_of_str (u "0.3") ;;
                ret (decimal_eqb (decimal_add d1 d2) d3))].

Definition demo_strings : Py unit :=
  print (u "\n" ++ str_mul (u "=") 50) ;;
  print (u "STRING DEMONSTRATION") ;;
  print (str_mul (u "=") 50) ;;
  let text := u "Python Programming" in
  printf [Lit "\nOriginal: "; val text] ;;
  printf [Lit "Length: "; val (len text)] ;;
  printf [Lit "Uppercase: "; val (upper text)] ;;
  printf [Lit "Lowercase: "; val (lower text)] ;;
  printf [Lit "First 6 chars: "; valr (slice text None (Some 6) None)] ;;
  printf [Lit "Last 11 chars: "; valr (slice text (Some (-11)) None None)] ;;
  printf [Lit "Reversed: "; valr (slice text None None (Some (-1)))] ;;
  let name := u "Alice" in
  let age := 30 in
  printf [Lit "\n--- String Formatting ---"] ;;
  printf [Lit "Hello, "; val name; Lit "! You are "; val age; Lit " years old."] ;;
  printf [Lit "Next year: "; val name; Lit " will be "; val (age + 1)] ;;
  let value := flit "1234.5678" in
  printf [Lit "\n--- Number Formatting ---"] ;;
  printf [Lit "Original: "; val value] ;;
  printf [Lit "2 decimals: "; fld value ".2f"] ;;
  printf [Lit "With commas: "; fld value ",.2f"] ;;
  printf [Lit "Percentage: "; fld (flit "0.755") ".1%"].

Definition falsy_values : list value :=
  [VInt 0; VFloat (flit "0.0"); VStr (u ""); VList []; VDict []; VNone; VBool false].

Definition truthy_values : list value :=
  [VInt 1; VStr (u "text"); VList [VInt 1]; VDict [(VStr (u "a"), VInt 1)]; VBool true].

Definition demo_booleans : Py unit :=
  print (u "\n" ++ str_mul (u "=") 50) ;;
  print (u "BOOLEAN DEMONSTRATION") ;;
  print (str_mul (u "=") 50) ;;
  printf [Lit "\nTrue and False = "; val (true && false)] ;;
  printf [Lit "True or False = "; val (true || false)] ;;
  printf [Lit "not True = "; val (negb true)] ;;
  let x := 5 in
  let y := 10 in
  printf [Lit "\n"; val x; Lit " == "; val y; Lit " = "; val (x =? y)] ;;
  printf [val x; Lit " < "; val y; Lit " = "; val (x <? y)] ;;
  printf [val x; Lit " != "; val y; Lit " = "; val (negb (x =? y))] ;;
  print (u "\n--- Truthiness Tests ---") ;;
  for_ falsy_values (fun v =>
    printf [fld (repr v) "10"; Lit " is falsy"]) ;;
  print [] ;;
  for_ truthy_values (fun v =>
    printf [fld (repr v) "10"; Lit " is truthy"]).

Definition demo_type_conversion : Py unit :=
  print (u "\n" ++ str_mul (u "=") 50) ;;
  print (u "TYPE CONVERSION DEMONSTRATION") ;;
  print (str_mul (u "=") 50) ;;
  let str_int := u "42" in
  let str_float := u "3.14" in
  printf [Lit "\nString '"; val str_int; Lit "' to int: "; valr (int_of_str str_int)] ;;
  printf [Lit "String '"; val str_float; Lit "' to float: "; valr (float_of_str str_float)] ;;
  let num := 100 in
  printf [Lit "\nInt "; val num; Lit " to string: '"; val (py_str num); Lit "'"] ;;
  let f := flit "3.7" in
  printf [Lit "\nFloat "; val f; Lit " to int: "; valr (int_of_float f); Lit " (truncates)"] ;;
  printf [Lit "\nType of "; val num; Lit ": "; val (type num)] ;;
  printf [Lit "Is "; val num; Lit " an int? "; val (isinstance num int)].

(** [def first[T](items: list[T]) -> T: return items[0]] *)
Definition first {T : Type} (items : list T) : result T := getitem items 0.

(** [class Box[T]]: the constructor stores [item]. *)
Record Box (T : Type) := { item : T }.
Arguments item {T} _.

Definition Box_init {T : Type} (item : T) : Box T := {| item := item |}.

Definition get {T : Type} (self : Box T) : T := item self.

(** [__repr__]: [f"Box({self.item!r})"] *)
Definition Box_repr {T : Type} `{PyObject T} (self : Box T) : str :=
  u "Box(" ++ py_repr (item self) ++ u ")".

(** A class without [__str__] and [__format__] takes [str] from
    [__repr__] and the formatting of [object]. *)
#[export] Instance PyObject_Box {T : Type} `{PyObject T} : PyObject (Box T) := {
  py_repr := Box_repr;
  py_str := Box_repr;
  py_format := fun b => format_object (Box_repr b);
  py_bool := fun _ => true
}.

Definition demo_generics : Py unit :=
  print (u "\n" ++ str_mul (u "=") 50) ;;
  print (u "GENERIC TYPES DEMONSTRATION (Python 3.14)") ;;
  print (str_mul (u "=") 50) ;;
  let numbers := [1; 2; 3] in
  let words := [u "hello"; u "world"] in
  printf [Lit "\nFirst number: "; valr (first numbers)] ;;
  printf [Lit "First word: "; valr (first words)] ;;
  let int_box := Box_init 42 in
  let str_box := Box_init (u "Python") in
  printf [Lit "\nInteger box: "; val int_box] ;;
  printf [Lit "String box: "; val str_box] ;;
  printf [Lit "Get value: "; val (get int_box)].

Definition main : Py unit :=
  print (u "\n") ;;
  print (u "╔" ++ str_mul (u "═") 48 ++ u "╗") ;;
  print (u "║" ++ str_mul (u " ") 10 ++ u "PYTHON TYPES DEMONSTRATION"
           ++ str_mul (u " ") 12 ++ u "║") ;;
  print (u "╚" ++ str_mul (u "═") 48 ++ u "╝") ;;
  demo_integers ;;
  demo_floats ;;
  demo_strings ;;
  demo_booleans ;;
  demo_type_conversion ;;
  demo_generics ;;
  print (u "\n" ++ str_mul (u "=") 50) ;;
  print (u "DEMONSTRATION COMPLETE") ;;
  print (str_mul (u "=") 50 ++ u "\n").

End types_demo.

(* ===================================================================== *)
(** * [02_basic_syntax/string_formatting.py] *)
(* ===================================================================== *)

Module string_formatting.

Definition basic_formatting : Py unit :=
  print (str_mul (u "=") 60) ;;
  print (u "BASIC F-STRING FORMATTING") ;;
  print (str_mul (u "=") 60) ;;
  let name := u "Alice" in
  let age := 30 in
  let city := u "New York" in
  printf [Lit "\nName: "; val name] ;;
  printf [Lit "Age: "; val age] ;;
  printf [Lit "City: "; val city] ;;
  printf [Lit "Full info: "; val name; Lit " is "; val age;
          Lit " years old and lives in "; val city] ;;
  printf [Lit "\nNext year "; val name; Lit " will be "; val (age + 1)] ;;
  printf [Lit "Uppercase name: "; val (upper name)] ;;
  printf [Lit "Name length: "; val (len name)].

Definition number_formatting : Py unit :=
  print (u "\n" ++ str_mul (u "=") 60) ;;
  print (u "NUMBER FORMATTING") ;;
  print (str_mul (u "=") 60) ;;
  let pi := flit "3.14159265359" in
  let large_num := flit "1234567.89" in
  let percentage := flit "0.755" in
  print (u "\n--- Decimal Places ---") ;;
  printf [Lit "Pi (original): "; val pi] ;;
  printf [Lit "Pi (2 decimals): "; fld pi ".2f"] ;;
  printf [Lit "Pi (4 decimals): "; fld pi ".4f"] ;;
  printf [Lit "Pi (6 decimals): "; fld pi ".6f"] ;;
  print (u "\n--- Thousands Separator ---") ;;
  printf [Lit "Large number: "; fld large_num ",.2f"] ;;
  printf [Lit "As integer: "; fldr (int_of_float large_num) ","] ;;
  print (u "\n--- Percentage ---") ;;
  printf [Lit "Percentage: "; fld percentage ".1%"] ;;
  printf [Lit "Percentage (2 decimals): "; fld percentage ".2%"] ;;
  print (u "\n--- Scientific Notation ---") ;;
  printf [Lit "Scientific (2 decimals): "; fld large_num ".2e"] ;;
  printf [Lit "Scientific (4 decimals): "; fld large_num ".4e"] ;;
  print (u "\n--- Zero Padding ---") ;;
  let num := 42 in
  printf [Lit "Zero-padded (5 digits): "; fld num "05d"] ;;
  printf [Lit "Zero-padded (8 digits): "; fld num "08d"] ;;
  print (u "\n--- Sign Display ---") ;;
  let positive := 42 in
  let negative := -42 in
  printf [Lit "Always show sign: "; fld positive "+d"] ;;
  printf [Lit "Always show sign: "; fld negative "+d"] ;;
  printf [Lit "Space for positive: "; fld positive " d"] ;;
  printf [Lit "Space for positive: "; fld negative " d"].

Definition alignment_formatting : Py unit :=
  print (u "\n" ++ str_mul (u "=") 60) ;;
  print (u "TEXT ALIGNMENT") ;;
  print (str_mul (u "=") 60) ;;
  let text := u "Python" in
  let width := 20 in
  print (u "\n--- Basic Alignment ---") ;;
  printf [Lit "Left:   '"; fldn text [Lit "<"; val width]; Lit "'"] ;;
  printf [Lit "Right:  '"; fldn text [Lit ">"; val width]; Lit "'"] ;;
  printf [Lit "Center: '"; fldn text [Lit "^"; val width]; Lit "'"] ;;
  print (u "\n--- Alignment with Fill Character ---") ;;
  printf [Lit "Fill with dots:   '"; fldn text [Lit ".<"; val width]; Lit "'"] ;;
  printf [Lit "Fill with dashes: '"; fldn text [Lit "->"; val width]; Lit "'"] ;;
  printf [Lit "Fill with stars:  '"; fldn text [Lit "*^"; val width]; Lit "'"] ;;
  print (u "\n--- Table-like Formatting ---") ;;
  let items :=
    [(u "Apple", 10, flit "1.50");
     (u "Banana", 25, flit "0.75");
     (u "Orange", 15, flit "1.25")] in
  printf [fld (u "Item") "<12"; Lit " "; fld (u "Qty") ">6"; Lit " "; fld (u "Price") ">8"] ;;
  print (str_mul (u "-") 28) ;;
  for_ items (fun '(item, qty, price) =>
    printf [fld item "<12"; Lit " "; fld qty ">6"; Lit " $"; fld price ">7.2f"]).

(** The five lines that render the current date and time. *)
Definition datetime_lines (now : datetime) : Py unit :=
  printf [Lit "Full: "; fld now "%Y-%m-%d %H:%M:%S"] ;;
  printf [Lit "Date only: "; fld now "%Y-%m-%d"] ;;
  printf [Lit "Time only: "; fld now "%H:%M:%S"] ;;
  printf [Lit "Custom: "; fld now "%B %d, %Y"] ;;
  printf [Lit "Weekday: "; fld now "%A"].

Definition advanced_formatting : Py unit :=
  print (u "\n" ++ str_mul (u "=") 60) ;;
  print (u "ADVANCED FORMATTING") ;;
  print (str_mul (u "=") 60) ;;
  let x := 42 in
  let y := 100 in
  print (u "\n--- Debug Formatting (shows variable name) ---") ;;
  printf [Lit "x="; rfld x] ;;
  printf [Lit "y="; rfld y] ;;
  printf [Lit "x + y="; rfld (x + y)] ;;
  let value := flit "123.456789" in
  let precision := 2 in
  print (u "\n--- Nested Formatting ---") ;;
  printf [Lit "Value with "; val precision; Lit " decimals: ";
          fldn value [Lit "."; val precision; Lit "f"]] ;;
  let precision := 4 in
  printf [Lit "Value with "; val precision; Lit " decimals: ";
          fldn value [Lit "."; val precision; Lit "f"]] ;;
  now <- datetime_now ;;
  print (u "\n--- Datetime Formatting ---") ;;
  datetime_lines now ;;
  let num := 42 in
  print (u "\n--- Number Base Formatting ---") ;;
  printf [Lit "Decimal: "; val num] ;;
  printf [Lit "Binary: "; fld num "b"; Lit " (or "; val (bin num); Lit ")"] ;;
  printf [Lit "Octal: "; fld num "o"; Lit " (or "; val (oct num); Lit ")"] ;;
  printf [Lit "Hex (lowercase): "; fld num "x"; Lit " (or "; val (hex num); Lit ")"] ;;
  printf [Lit "Hex (uppercase): "; fld num "X"].

(** The rows of the invoice. *)
Definition invoice_items : list (str * Z * float) :=
  [(u "Python Programming Book", 2, flit "29.99");
   (u "Code Editor License", 1, flit "49.99");
   (u "Online Course", 1, flit "89.99")].

(** The loop over the rows: [subtotal] is the local variable it updates. *)
Definition invoice_rows (items : list (str * Z * float)) : Py number :=
  for_fold items (Int 0) (fun subtotal '(item, qty, price) =>
    total <- lift (nmul (Int qty) (Float price)) ;;
    subtotal <- lift (nadd subtotal total) ;;
    printf [fld item "<25"; Lit " "; fld qty ">5"; Lit " $"; fld price ">9.2f";
            Lit " $"; fld total ">9.2f"] ;;
    ret subtotal).

(** The tax on a subtotal. *)
Definition invoice_tax (subtotal : number) : result number :=
  nmul subtotal (Float (flit "0.085")).

Definition invoice : Py unit :=
  print (u "\n--- Invoice ---") ;;
  printf [fld (u "Item") "<25"; Lit " "; fld (u "Qty") ">5"; Lit " ";
          fld (u "Price") ">10"; Lit " "; fld (u "Total") ">10"] ;;
  print (str_mul (u "-") 52) ;;
  subtotal <- invoice_rows invoice_items ;;
  tax <- lift (invoice_tax subtotal) ;;
  total <- lift (nadd subtotal tax) ;;
  print (str_mul (u "-") 52) ;;
  printf [fld (u "Subtotal:") "<42"; Lit " $"; fld subtotal ">9.2f"] ;;
  printf [fld (u "Tax (8.5%):") "<42"; Lit " $"; fld tax ">9.2f"] ;;
  printf [fld (u "Total:") "<42"; Lit " $"; fld total ">9.2f"].

(** The bar for a number of filled cells. *)
Definition bar (filled : Z) : str :=
  str_mul (u "█") filled ++ str_mul (u "░") (50 - filled).

(** One pass of the progress-bar loop. *)
Definition progress_frame (i : Z) : Py unit :=
  filled <- lift (floordiv i 2) ;;
  printf_end [Lit "\r["; val (bar filled); Lit "] "; fld i ">3"; Lit "%"] [].

Definition progress_bar : Py unit :=
  print (u "\n--- Progress Bar ---") ;;
  percentages <- lift (range 0 101 10) ;;
  for_ percentages progress_frame ;;
  print [].

Definition stock_prices : Py unit :=
  print (u "\n--- Stock Prices ---") ;;
  let stocks :=
    [(u "AAPL", flit "150.25", flit "2.5");
     (u "GOOGL", flit "2800.50", fneg (flit "1.3"));
     (u "TSLA", flit "725.75", flit "5.8")] in
  printf [fld (u "Symbol") "<8"; Lit " "; fld (u "Price") ">10"; Lit " ";
          fld (u "Change") ">10"] ;;
  print (str_mul (u "-") 30) ;;
  for_ stocks (fun '(symbol, price, change) =>
    let sign := if ngt (Float change) (Int 0) then u "+" else u "" in
    printf [fld symbol "<8"; Lit " $"; fld price ">9.2f"; Lit " "; val sign;
            fld change ">8.2f"; Lit "%"]).

Definition practical_examples : Py unit :=
  print (u "\n" ++ str_mul (u "=") 60) ;;
  print (u "PRACTICAL EXAMPLES") ;;
  print (str_mul (u "=") 60) ;;
  invoice ;;
  progress_bar ;;
  stock_prices.

Definition comparison_example : Py unit :=
  print (u "\n" ++ str_mul (u "=") 60) ;;
  print (u "FORMATTING METHOD COMPARISON") ;;
  print (str_mul (u "=") 60) ;;
  let name := u "Alice" in
  let age := 30 in
  print (u "\n--- Old % formatting (avoid) ---") ;;
  s <- lift (percent_format (u "Hello, %s! You are %d years old.") [VStr name; VInt age]) ;;
  print s ;;
  print (u "\n--- .format() method (okay but verbose) ---") ;;
  s <- lift (str_format (u "Hello, {}! You are {} years old.") [VStr name; VInt age] []) ;;
  print s ;;
  s <- lift (str_format (u "Hello, {0}! You are {1} years old.") [VStr name; VInt age] []) ;;
  print s ;;
  s <- lift (str_format (u "Hello, {name}! You are {age} years old.") []
               [(u "name", VStr name); (u "age", VInt age)]) ;;
  print s ;;
  print (u "\n--- f-strings (preferred, Python 3.6+) ---") ;;
  printf [Lit "Hello, "; val name; Lit "! You are "; val age; Lit " years old."] ;;
  print (u "\n✓ f-strings are:") ;;
  print (u "  - More readable") ;;
  print (u "  - Faster") ;;
  print (u "  - Support expressions") ;;
  print (u "  - Modern Python standard").

Definition main : Py unit :=
  print (u "\n") ;;
  print (u "╔" ++ str_mul (u "═") 58 ++ u "╗") ;;
  print (u "║" ++ str_mul (u " ") 12 ++ u "PYTHON STRING FORMATTING GUIDE"
           ++ str_mul (u " ") 16 ++ u "║") ;;
  print (u "╚" ++ str_mul (u "═") 58 ++ u "╝") ;;
  basic_formatting ;;
  number_formatting ;;
  alignment_formatting ;;
  advanced_formatting ;;
  practical_examples ;;
  comparison_example ;;
  print (u "\n" ++ str_mul (u "=") 60) ;;
  print (u "FORMATTING GUIDE COMPLETE") ;;
  print (str_mul (u "=") 60 ++ u "\n").

End string_formatting.

(* ===================================================================== *)
(** * Vocabulary of the properties *)
(* ===================================================================== *)

(** Lines of text, each ended by a newline. *)
Definition unlines (ls : list string) : str :=
  flat_map (fun l => u l ++ [10%N]) ls.

(** The lines of an output, without their newlines. *)
Fixpoint split_lines (cur : str) (s : str) : list str :=
  match s with
  | [] => match cur with [] => [] | _ => [rev cur] end
  | c :: s' =>
      if (c =? 10)%N then rev cur :: split_lines [] s'
      else split_lines (c :: cur) s'
  end.
Definition lines (s : str) : list str := split_lines [] s.

(** [s] without the ending [suffix], when it has it. *)
Definition strip_suffix (suffix s : str) : option str :=
  let k := (List.length s - List.length suffix)%nat in
  if str_eqb (skipn k s) suffix then Some (firstn k s) else None.

Definition rstrip (s : str) : str := rev (lstrip (rev s)).

(** The truthiness labels an output holds: for each line ending in
    [is falsy] or [is truthy], the text before the label and whether the
    label is [truthy]. *)
Definition label_of (line : str) : list (str * bool) :=
  match strip_suffix (u " is falsy") line, strip_suffix (u " is truthy") line with
  | Some t, _ => [(rstrip t, false)]
  | None, Some t => [(rstrip t, true)]
  | None, None => []
  end.
Definition labels (out : str) : list (str * bool) := flat_map label_of (lines out).

(** A world to run the scripts in. *)
Definition world0 : World :=
  {| now := {| year := 2025; month := 2; day := 28;
               hour := 9; minute := 5; second := 7; microsecond := 0 |};
     version_info := (3, 14) |}.

(** The same world one day later. *)
Definition world1 : World :=
  {| now := {| year := 2025; month := 3; day := 1;
               hour := 9; minute := 5; second := 7; microsecond := 0 |};
     version_info := (3, 14) |}.

(** The topic functions of the two demo suites. *)
Definition clock_free_topics : list (Py unit) :=
  [string_formatting.basic_formatting;
   string_formatting.number_formatting;
   string_formatting.alignment_formatting;
   string_formatting.practical_examples;
   string_formatting.comparison_example;
   types_demo.demo_integers;
   types_demo.demo_floats;
   types_demo.demo_strings;
   types_demo.demo_booleans;
   types_demo.demo_type_conversion;
   types_demo.demo_generics].

Definition topic_functions : list (Py unit) :=
  string_formatting.advanced_formatting :: clock_free_topics.

(** What the empty format spec parses to. *)
Definition empty_spec : format_spec :=
  {| fs_fill := 32%N; fs_align := None; fs_sign := None; fs_alt := false;
     fs_width := None; fs_sep := None; fs_prec := None; fs_type := None |}.

(** The expression [29.99*2 + 49.99 + 89.99], evaluated in binary64 from
    left to right. *)
Definition subtotal_expr : float :=
  fadd (fadd (fmul (flit "29.99") (flit "2")) (flit "49.99")) (flit "89.99").

(** The two block characters of the progress bar: U+2588 and U+2591. *)
Definition full_block : char := 9608%N.
Definition light_shade : char := 9617%N.

(** The percentages the progress-bar loop goes through. *)
Definition percentages : list Z := [0; 10; 20; 30; 40; 50; 60; 70; 80; 90; 100].

(** The text of the five date and time lines, for a given clock reading. *)
Definition datetime_text (d : datetime) : str :=
  u "Full: " ++ strftime d (u "%Y-%m-%d %H:%M:%S") ++ u "
"
  ++ u "Date only: " ++ strftime d (u "%Y-%m-%d") ++ u "
"
  ++ u "Time only: " ++ strftime d (u "%H:%M:%S") ++ u "
"
  ++ u "Custom: " ++ strftime d (u "%B %d, %Y") ++ u "
"
  ++ u "Weekday: " ++ strftime d (u "%A") ++ u "
".

(** What [advanced_formatting] prints before and after those lines. *)
Definition advanced_head : str :=
  unlines ["";
           "============================================================";
           "ADVANCED FORMATTING";
           "============================================================";
           "";
           "--- Debug Formatting (shows variable name) ---";
           "x=42";
           "y=100";
           "x + y=142";
           "";
           "--- Nested Formatting ---";
           "Value with 2 decimals: 123.46";
           "Value with 4 decimals: 123.4568";
           "";
           "--- Datetime Formatting ---"]%string.

Definition advanced_tail : str :=
  unlines ["";
           "--- Number Base Formatting ---";
           "Decimal: 42";
           "Binary: 101010 (or 0b101010)";
           "Octal: 52 (or 0o52)";
           "Hex (lowercase): 2a (or 0x2a)";
           "Hex (uppercase): 2A"]%string.

(** The line every formatting method of [comparison_example] builds. *)
Definition greeting_line (name : str) (age : Z) : str :=
  u "Hello, " ++ name ++ u "! You are " ++ int_str age ++ u " years old.".

(** The framed titles and the closing lines of the two demo suites. *)
Definition types_banner : str :=
  unlines [""; "";
           "╔════════════════════════════════════════════════╗";
           "║          PYTHON TYPES DEMONSTRATION            ║";
           "╚════════════════════════════════════════════════╝"]%string.

Definition types_footer : str :=
  unlines [""; "==================================================";
           "DEMONSTRATION COMPLETE";
           "==================================================";
           ""]%string.

Definition formatting_banner : str :=
  unlines [""; "";
           "╔══════════════════════════════════════════════════════════╗";
           "║            PYTHON STRING FORMATTING GUIDE                ║";
           "╚══════════════════════════════════════════════════════════╝"]%string.

Definition formatting_footer : str :=
  unlines [""; "============================================================";
           "FORMATTING GUIDE COMPLETE";
           "============================================================";
           ""]%string.

(** The element at index [i], as a list of at most one element. *)
Definition pick {A : Type} (l : list A) (i : nat) : list A :=
  match nth_error l i with Some a => [a] | None => [] end.

(* ===================================================================== *)
(** * Properties of the runtime *)
(* ===================================================================== *)

Lemma len_nonneg {A : Type} (l : list A) : 0 <= len l.
Proof. unfold len. lia. Qed.

Lemma len_app {A : Type} (l1 l2 : list A) : len (l1 ++ l2) = len l1 + len l2.
Proof. unfold len. rewrite length_app. lia. Qed.

Lemma str_mul_char (c : char) (n : Z) : str_mul [c] n = repeat c (Z.to_nat n).
Proof.
  unfold str_mul. induction (Z.to_nat n) as [|k IH]; simpl; [reflexivity|].
  now rewrite IH.
Qed.

Lemma len_str_mul_char (c : char) (n : Z) : 0 <= n -> len (str_mul [c] n) = n.
Proof.
  intros Hn. rewrite str_mul_char. unfold len. rewrite repeat_length. lia.
Qed.

(** Without a width nothing is added around a field. *)
Lemma pad_no_width (sp : format_spec) (d : align_t) (head body : str) :
  fs_width sp = None -> pad sp d head body = head ++ body.
Proof.
  intros Hw. unfold pad. rewrite Hw.
  assert (Hz : Z.max 0 (0 - len head - len body) = 0).
  { pose proof (len_nonneg head). pose proof (len_nonneg body). lia. }
  rewrite Hz. change (0 / 2) with 0. change (0 - 0) with 0.
  unfold str_mul. simpl.
  destruct (match fs_align sp with Some a => a | None => d end);
    rewrite ?app_nil_r; reflexivity.
Qed.

(** The field [{n}] of an f-string shows an [int] as [str(n)] does. *)
Lemma format_int_empty (n : Z) : format_int n [] = Ok (int_str n).
Proof.
  unfold format_int, int_str.
  change (parse_spec true []) with (Ok empty_spec).
  cbv beta iota zeta delta
    [bind Monad_result is_float_type type_is fs_type orb format_int_spec fs_prec
     fs_sep empty_spec].
  rewrite pad_no_width by reflexivity.
  unfold sign_str. cbv beta iota delta [fs_sign].
  destruct (n <? 0) eqn:Hn.
  - apply Z.ltb_lt in Hn. rewrite Z.abs_neq by lia. reflexivity.
  - apply Z.ltb_ge in Hn. rewrite Z.abs_eq by lia. reflexivity.
Qed.

(** The field [{s}] shows a text as it is. *)
Lemma format_str_empty (s : str) : format_str s [] = Ok s.
Proof.
  unfold format_str.
  change (parse_spec false []) with (Ok empty_spec).
  cbv beta iota zeta delta
    [bind Monad_result fs_type fs_prec fs_sep fs_sign fs_alt fs_align empty_spec].
  rewrite pad_no_width by reflexivity. reflexivity.
Qed.

(** Indexing at 0 gives the head, and fails on the empty list only. *)
Lemma getitem_0 {A : Type} (l : list A) :
  getitem l 0 = match l with [] => Raise IndexError | x :: _ => Ok x end.
Proof. destruct l; reflexivity. Qed.

(** [int()] of a finite float is the quotient of its exact value rounded
    toward zero. *)
Lemma int_of_float_truncates (s : bool) (m : positive) (e : Z) :
  int_of_float (S754_finite s m e)
  = Ok (Z.quot (if s then - fnum m e else fnum m e) (fden e)).
Proof.
  unfold int_of_float, fnum, fden. f_equal.
  destruct (0 <=? e) eqn:He.
  - rewrite Z.quot_1_r. reflexivity.
  - apply Z.leb_gt in He.
    assert (Hd : 0 < 2 ^ (- e)) by (apply Z.pow_pos_nonneg; lia).
    destruct s.
    + rewrite Z.quot_opp_l by lia. rewrite Z.quot_div_nonneg by lia. reflexivity.
    + rewrite Z.quot_div_nonneg by lia. reflexivity.
Qed.

(* ===================================================================== *)
(** * Properties of the scripts *)
(* ===================================================================== *)

(** ** The greeting script *)

(** What a run of the greeting script writes, and how it ends. *)
Lemma hello_main_run (w : World) :
  hello.main w =
    (unlines ["Hello, World!"; "Welcome to Python 3.14!";
              "Hello, Python Learner!"; "2 + 2 = 4"]%string
     ++ u "\nYou are using Python " ++ int_str (fst (version_info w))
     ++ u "." ++ int_str (snd (version_info w)) ++ u "\n", Ok tt).
Proof.
  unfold hello.main, printf, sys_version_info, lift, print, print_end, val.
  cbn [bind Monad_Py fstring py_format PyObject_int ret Monad_result].
  rewrite !format_int_empty.
  change (hello.greet (u "Python Learner")) with (Ok (u "Hello, Python Learner!")).
  cbv beta iota zeta.
  generalize (int_str (fst (version_info w))) (int_str (snd (version_info w))).
  intros a b. rewrite <- !app_assoc. reflexivity.
Qed.

(** C2: running [main] of the greeting script prints the line
    [Hello, World!], then the line [Welcome to Python 3.14!], then the
    greeting [greet] builds for the name [Python Learner], then the line
    [2 + 2 = 4]; what follows is a blank line and the version of the
    interpreter, and the run ends normally. *)
Theorem hello_main_prints (w : World) :
  hello.greet (u "Python Learner") = Ok (u "Hello, Python Learner!")
  /\ stdout hello.main w =
       unlines ["Hello, World!"; "Welcome to Python 3.14!";
                "Hello, Python Learner!"; "2 + 2 = 4"]%string
       ++ u "\nYou are using Python " ++ int_str (fst (version_info w))
       ++ u "." ++ int_str (snd (version_info w)) ++ u "\n"
  /\ firstn 4 (lines (stdout hello.main w)) =
       [u "Hello, World!"; u "Welcome to Python 3.14!";
        u "Hello, Python Learner!"; u "2 + 2 = 4"]
  /\ outcome hello.main w = Ok tt.
Proof.
  pose proof (hello_main_run w) as Hrun.
  unfold stdout, outcome. rewrite Hrun. cbn [fst snd].
  repeat split; reflexivity.
Qed.

(** ** The types demo *)

(** C10: [demo_integers] computes the exact value of 2 to the power 100,
    1267650600228229401496703205376, and prints that its decimal form has
    31 digits. *)
Theorem demo_integers_huge (w : World) :
  2 ^ 100 = 1267650600228229401496703205376
  /\ py_str (2 ^ 100) = u "1267650600228229401496703205376"
  /\ len (py_str (2 ^ 100)) = 31
  /\ stdout types_demo.demo_integers w =
       unlines ["==================================================";
                "INTEGER DEMONSTRATION";
                "==================================================";
                "";
                "a = 15, b = 4";
                "Addition: 15 + 4 = 19";
                "Subtraction: 15 - 4 = 11";
                "Multiplication: 15 * 4 = 60";
                "Division: 15 / 4 = 3.75";
                "Floor division: 15 // 4 = 3";
                "Modulo: 15 % 4 = 3";
                "Exponentiation: 15 ** 4 = 50625";
                "";
                "2^100 = 1267650600228229401496703205376";
                "Length: 31 digits";
                "";
                "Binary 0b1010 = 10";
                "Octal 0o12 = 10";
                "Hexadecimal 0xFF = 255"]%string
  /\ outcome types_demo.demo_integers w = Ok tt.
Proof. repeat split; vm_compute; reflexivity. Qed.

(** C4: in [demo_type_conversion] the text [42] converts to the integer
    42, the integer 100 converts to the text [100], and the float 3.7
    converts to the integer 3; the conversion of a float drops the
    fraction, that is, it rounds toward zero (so -3.7 gives -3). *)
Theorem type_conversions (w : World) :
  int_of_str (u "42") = Ok 42
  /\ py_str 100 = u "100"
  /\ int_of_float (flit "3.7") = Ok 3
  /\ int_of_float (flit "-3.7") = Ok (-3)
  /\ (forall s m e,
        int_of_float (S754_finite s m e)
        = Ok (Z.quot (if s then - fnum m e else fnum m e) (fden e)))
  /\ stdout types_demo.demo_type_conversion w =
       unlines [""; "==================================================";
                "TYPE CONVERSION DEMONSTRATION";
                "==================================================";
                "";
                "String '42' to int: 42";
                "String '3.14' to float: 3.14";
                "";
                "Int 100 to string: '100'";
                "";
                "Float 3.7 to int: 3 (truncates)";
                "";
                "Type of 100: <class 'int'>";
                "Is 100 an int? True"]%string.
Proof.
  repeat split; try (vm_compute; reflexivity).
  intros s m e. apply int_of_float_truncates.
Qed.

(** C8: [Box] gives back the item it was built with, unchanged, whatever
    the element type; and [first] gives back the first element of a
    non-empty list, whatever the element type. *)
Theorem box_and_first_return_unchanged (T : Type) (x : T) (rest : list T) :
  types_demo.get (types_demo.Box_init x) = x
  /\ types_demo.first (x :: rest) = Ok x.
Proof. split; reflexivity. Qed.

(** C9: [first] fails with an index error exactly on the empty list, and
    gives the element at index 0 of any other list; the two calls in the
    demo pass non-empty lists. *)
Theorem first_fails_exactly_on_empty (T : Type) (items : list T) :
  (types_demo.first items = Raise IndexError <-> items = [])
  /\ types_demo.first items
     = match items with [] => Raise IndexError | x :: _ => Ok x end
  /\ types_demo.first [1; 2; 3] = Ok 1
  /\ types_demo.first [u "hello"; u "world"] = Ok (u "hello").
Proof.
  unfold types_demo.first. rewrite getitem_0.
  repeat split; try reflexivity.
  - destruct items; [reflexivity | discriminate].
  - intros ->. reflexivity.
Qed.

(** C3: the truthiness part of [demo_booleans] prints an [is falsy] line
    for each of 0, 0.0, the empty text, the empty list, the empty mapping,
    [None] and [False], an [is truthy] line for each of 1, ['text'], [[1]],
    [{'a': 1}] and [True], and no other labelled line; and the label of
    every value agrees with its truth value. *)
Theorem truthiness_labels (w : World) :
  types_demo.falsy_values
  = [VInt 0; VFloat (S754_zero false); VStr []; VList []; VDict []; VNone; VBool false]
  /\ types_demo.truthy_values
     = [VInt 1; VStr (u "text"); VList [VInt 1]; VDict [(VStr (u "a"), VInt 1)];
        VBool true]
  /\ labels (stdout types_demo.demo_booleans w)
     = [(u "0", false); (u "0.0", false); (u "''", false); (u "[]", false);
        (u "{}", false); (u "None", false); (u "False", false);
        (u "1", true); (u "'text'", true); (u "[1]", true); (u "{'a': 1}", true);
        (u "True", true)]
  /\ labels (stdout types_demo.demo_booleans w)
     = map (fun v => (repr v, truth v))
           (types_demo.falsy_values ++ types_demo.truthy_values)
  /\ Forall (fun v => truth v = false) types_demo.falsy_values
  /\ Forall (fun v => truth v = true) types_demo.truthy_values.
Proof.
  repeat split; try (vm_compute; reflexivity);
    repeat constructor.
Qed.

(** ** The formatting guide *)

(** The bar is fifty cells wide for every admissible number of filled
    cells. *)
Lemma bar_width (filled : Z) :
  0 <= filled <= 50 -> len (string_formatting.bar filled) = 50.
Proof.
  intros H. unfold string_formatting.bar.
  change (u "█") with [full_block]. change (u "░") with [light_shade].
  rewrite len_app, !len_str_mul_char by lia. lia.
Qed.

(** C5: the progress-bar loop goes through 0, 10, ..., 100; for each such
    [i] the bar is [i // 2] full blocks followed by [50 - i // 2] light
    blocks, fifty characters in all, and the frame written is a carriage
    return, the bar in brackets, and the percentage right-aligned in three
    characters before the percent sign, with no newline; the frames follow
    one another on one line, which a single newline ends. *)
Theorem progress_frame_draws_bar (i : Z) (w : World) :
  In i percentages ->
  range 0 101 10 = Ok percentages
  /\ floordiv i 2 = Ok (i / 2)
  /\ string_formatting.bar (i / 2)
     = repeat full_block (Z.to_nat (i / 2)) ++ repeat light_shade (Z.to_nat (50 - i / 2))
  /\ len (string_formatting.bar (i / 2)) = 50
  /\ stdout (string_formatting.progress_frame i) w
     = u "\r[" ++ string_formatting.bar (i / 2) ++ u "] "
       ++ repeat 32%N (3 - List.length (int_str i)) ++ int_str i ++ u "%"
  /\ existsb (N.eqb 10) (stdout (string_formatting.progress_frame i) w) = false
  /\ outcome (string_formatting.progress_frame i) w = Ok tt
  /\ stdout string_formatting.progress_bar w
     = u "\n--- Progress Bar ---\n"
       ++ flat_map (fun j => stdout (string_formatting.progress_frame j) w) percentages
       ++ u "\n".
Proof.
  intros H. unfold percentages in H. simpl in H.
  repeat (destruct H as [<- | H];
          [ repeat split; vm_compute; reflexivity | ]).
  contradiction.
Qed.

Lemma progress_frame_draws_bar_witness :
  In 50 percentages
  /\ len (string_formatting.bar (50 / 2)) = 50
  /\ stdout (string_formatting.progress_frame 50) world0
     = u "\r[" ++ string_formatting.bar (50 / 2) ++ u "] "
       ++ repeat 32%N (3 - List.length (int_str 50)) ++ int_str 50 ++ u "%".
Proof.
  assert (H : In 50 percentages).
  { unfold percentages. simpl. tauto. }
  pose proof (progress_frame_draws_bar 50 world0 H) as P.
  split; [exact H | split].
  - exact (proj1 (proj2 (proj2 (proj2 P)))).
  - exact (proj1 (proj2 (proj2 (proj2 (proj2 P))))).
Defined.

(** C1, as the code has it: the subtotal accumulated over the three rows
    is the binary64 value of [29.99*2 + 49.99 + 89.99], which is
    199.95999999999998 and is printed to two decimals as [199.96]; the tax,
    the subtotal times 0.085, is the float 16.9966 and is printed to two
    decimals as [17.00]. *)
Theorem invoice_subtotal_and_tax (w : World) :
  outcome (string_formatting.invoice_rows string_formatting.invoice_items) w
  = Ok (Float subtotal_expr)
  /\ float_repr subtotal_expr = u "199.95999999999998"
  /\ py_format subtotal_expr (u ".2f") = Ok (u "199.96")
  /\ string_formatting.invoice_tax (Float subtotal_expr) = Ok (Float (flit "16.9966"))
  /\ py_format (flit "16.9966") (u ".2f") = Ok (u "17.00")
  /\ stdout string_formatting.invoice w
     = unlines ["";
                "--- Invoice ---";
                "Item                        Qty      Price      Total";
                "----------------------------------------------------";
                "Python Programming Book       2 $    29.99 $    59.98";
                "Code Editor License           1 $    49.99 $    49.99";
                "Online Course                 1 $    89.99 $    89.99";
                "----------------------------------------------------";
                "Subtotal:                                  $   199.96";
                "Tax (8.5%):                                $    17.00";
                "Total:                                     $   216.96"]%string.
Proof. repeat split; vm_compute; reflexivity. Qed.

(** C1, as the claim states it, fails: the subtotal the loop leaves is the
    float 7035467042882846 * 2^-45, which is neither the float nearest to
    199.96 nor, as an exact number, 199.96. *)
Lemma invoice_subtotal_differs_from_199_96 :
  outcome (string_formatting.invoice_rows string_formatting.invoice_items) world0
  = Ok (Float (S754_finite false 7035467042882846 (-45)))
  /\ flit "199.96" = S754_finite false 7035467042882847 (-45)
  /\ S754_finite false 7035467042882846 (-45) <> flit "199.96"
  /\ 7035467042882846 * 100 <> 19996 * 2 ^ 45.
Proof.
  split; [vm_compute; reflexivity | split; [vm_compute; reflexivity | split]].
  - vm_compute. discriminate.
  - vm_compute. discriminate.
Qed.

(** ** Running a script statement by statement *)

Lemma bind_run {A B : Type} (c : Py A) (k : A -> Py B) (w : World)
    (out out' : str) (a : A) (r : result B) :
  c w = (out, Ok a) -> k a w = (out', r) -> bind c k w = (out ++ out', r).
Proof.
  intros H1 H2. cbn [bind Monad_Py]. rewrite H1, H2. reflexivity.
Qed.

(** The date and time lines never fail, whatever the clock reads. *)
Lemma datetime_lines_run (d : datetime) (w : World) :
  string_formatting.datetime_lines d w = (datetime_text d, Ok tt).
Proof.
  unfold string_formatting.datetime_lines, printf, fld, print, print_end, lift.
  cbn [bind Monad_Py Monad_result fstring py_format PyObject_datetime ret].
  unfold datetime_text.
  repeat match goal with
  | |- context [format_datetime d (u ?s)] =>
      change (format_datetime d (u s)) with (Ok (strftime d (u s)))
  end.
  cbv beta iota zeta.
  rewrite <- !app_assoc.
  reflexivity.
Qed.

(** One statement of a sequence: run it with [tac], go on with the rest. *)
Ltac run_step tac :=
  lazymatch goal with
  | |- bind _ _ _ = _ => eapply bind_run; [ tac | cbv beta ]
  end.

Ltac run_statement :=
  idtac;
  lazymatch goal with
  | |- datetime_now _ = _ => reflexivity
  | |- string_formatting.datetime_lines _ _ = _ => apply datetime_lines_run
  | |- _ => vm_compute; reflexivity
  end.

(** [advanced_formatting] writes a fixed text, the date and time lines
    for the clock reading, and another fixed text. *)
Lemma advanced_formatting_run (w : World) :
  string_formatting.advanced_formatting w
  = (advanced_head ++ datetime_text (now w) ++ advanced_tail, Ok tt).
Proof.
  unfold string_formatting.advanced_formatting. cbv zeta.
  etransitivity.
  - repeat run_step run_statement. vm_compute; reflexivity.
  - generalize (datetime_text (now w)). intros t. vm_compute. reflexivity.
Qed.

Ltac run_call :=
  idtac;
  lazymatch goal with
  | |- string_formatting.advanced_formatting _ = _ => apply advanced_formatting_run
  | |- _ => vm_compute; reflexivity
  end.

Lemma string_formatting_main_ok (w : World) :
  outcome string_formatting.main w = Ok tt.
Proof.
  assert (H : exists out, string_formatting.main w = (out, Ok tt)).
  { eexists. unfold string_formatting.main.
    repeat run_step run_call.
    vm_compute; reflexivity. }
  destruct H as [out H]. unfold outcome. rewrite H. reflexivity.
Qed.

(** C6: every topic function but [advanced_formatting] writes the same
    text and ends the same way in any two worlds; [advanced_formatting]
    writes a fixed text around the five date and time lines, which are a
    function of the clock reading alone and do vary with it; and every
    topic function returns [None]. *)
Theorem topic_functions_deterministic :
  Forall (fun f : Py unit => forall w1 w2, f w1 = f w2) clock_free_topics
  /\ (forall w, stdout string_formatting.advanced_formatting w
                = advanced_head ++ datetime_text (now w) ++ advanced_tail)
  /\ (forall d w, stdout (string_formatting.datetime_lines d) w = datetime_text d)
  /\ datetime_text (now world0)
     = unlines ["Full: 2025-02-28 09:05:07"; "Date only: 2025-02-28";
                "Time only: 09:05:07"; "Custom: February 28, 2025";
                "Weekday: Friday"]%string
  /\ datetime_text (now world1)
     = unlines ["Full: 2025-03-01 09:05:07"; "Date only: 2025-03-01";
                "Time only: 09:05:07"; "Custom: March 01, 2025";
                "Weekday: Saturday"]%string
  /\ stdout string_formatting.advanced_formatting world0
     <> stdout string_formatting.advanced_formatting world1
  /\ Forall (fun f : Py unit => forall w, outcome f w = Ok tt) topic_functions.
Proof.
  split; [| split; [| split; [| split; [| split; [| split]]]]].
  - unfold clock_free_topics.
    repeat (constructor; [ intros w1 w2; vm_compute; reflexivity | ]).
    constructor.
  - intros w. unfold stdout. rewrite advanced_formatting_run. reflexivity.
  - intros d w. unfold stdout. rewrite datetime_lines_run. reflexivity.
  - vm_compute. reflexivity.
  - vm_compute. reflexivity.
  - vm_compute. discriminate.
  - unfold topic_functions, clock_free_topics.
    constructor.
    + intros w. unfold outcome. rewrite advanced_formatting_run. reflexivity.
    + repeat (constructor; [ intros w; vm_compute; reflexivity | ]).
      constructor.
Qed.

(** C7: the operations the claim names succeed on the values used, a slice
    without a step never fails, and each of the three scripts runs to its
    end in every world and exits with status 0. *)
Theorem scripts_run_to_completion (w : World) :
  truediv 15 4 = Ok (flit "3.75")
  /\ floordiv 15 4 = Ok 3
  /\ mod_ 15 4 = Ok 3
  /\ slice (u "Python Programming") None (Some 6) None = Ok (u "Python")
  /\ slice (u "Python Programming") (Some (-11)) None None = Ok (u "Programming")
  /\ slice (u "Python Programming") None None (Some (-1)) = Ok (u "gnimmargorP nohtyP")
  /\ (forall (A : Type) (l : list A) (start stop : option Z),
        exists r, slice l start stop None = Ok r)
  /\ types_demo.first [1; 2; 3] = Ok 1
  /\ types_demo.first [u "hello"; u "world"] = Ok (u "hello")
  /\ outcome hello.main w = Ok tt
  /\ exit_status hello.main w = 0
  /\ outcome types_demo.main w = Ok tt
  /\ exit_status types_demo.main w = 0
  /\ outcome string_formatting.main w = Ok tt
  /\ exit_status string_formatting.main w = 0.
Proof.
  assert (Hh : outcome hello.main w = Ok tt).
  { unfold outcome. rewrite hello_main_run. reflexivity. }
  assert (Ht : outcome types_demo.main w = Ok tt) by (vm_compute; reflexivity).
  pose proof (string_formatting_main_ok w) as Hs.
  unfold exit_status. rewrite Hh, Ht, Hs.
  repeat split; try (vm_compute; reflexivity).
  intros A l start stop. unfold slice. cbn. eexists. reflexivity.
Qed.

(* ===================================================================== *)
(** * Further properties *)
(* ===================================================================== *)

(** ** The greeting script *)

(** [greet] never fails: it wraps the name as it is. *)
Lemma greet_run (name : str) :
  hello.greet name = Ok (u "Hello, " ++ name ++ u "!").
Proof.
  unfold hello.greet, val. cbn [fstring py_format PyObject_str bind ret Monad_result].
  rewrite format_str_empty. reflexivity.
Qed.

(** X1: for every name, [greet] succeeds and returns [Hello, ] followed by
    the name and an exclamation mark; two names get the same greeting only
    if they are the same name. *)
Theorem greet_total_injective (a b : str) :
  hello.greet a = Ok (u "Hello, " ++ a ++ u "!")
  /\ (hello.greet a = hello.greet b <-> a = b).
Proof.
  split; [apply greet_run |].
  rewrite !greet_run. split.
  - intros H. injection H as H.
    apply app_inv_tail in H. exact H.
  - intros ->. reflexivity.
Qed.

(** ** Decimal digits *)

(** A decimal digit is written as the character that reads back as it. *)
Lemma digit_char_dec (d : Z) : 0 <= d < 10 ->
  is_digit (digit_char false d) = true /\ Z.of_N (digit_char false d) - 48 = d.
Proof.
  intros H. unfold digit_char, is_digit.
  destruct (d <? 10) eqn:E; [| apply Z.ltb_ge in E; lia].
  split.
  - apply andb_true_iff. split; apply N.leb_le; lia.
  - rewrite Z2N.id by lia. lia.
Qed.

Lemma digits_loop_all_digits (fuel : nat) (n : Z) (acc : str) :
  Forall (fun c => is_digit c = true) acc ->
  Forall (fun c => is_digit c = true) (digits_loop fuel 10 false n acc).
Proof.
  revert n acc. induction fuel as [|f IH]; intros n acc Hacc; simpl; [exact Hacc|].
  assert (Hd : is_digit (digit_char false (n mod 10)) = true).
  { apply digit_char_dec. apply Z.mod_pos_bound. lia. }
  destruct (n <? 10).
  - constructor; assumption.
  - apply IH. constructor; assumption.
Qed.

(** Reading the digits that [digits_loop] puts in front of [acc] shifts
    the value read so far by a power of ten and adds [n]. *)
Lemma digits_loop_value (fuel : nat) :
  forall n acc, 0 <= n < 10 ^ Z.of_nat fuel ->
  exists p, forall a,
    digits_value a (digits_loop fuel 10 false n acc) = digits_value (a * p + n) acc.
Proof.
  induction fuel as [|f IH]; intros n acc Hn.
  - simpl in Hn. assert (n = 0) by lia. subst. exists 1. intros a. simpl.
    f_equal. lia.
  - cbn [digits_loop].
    destruct (digit_char_dec (n mod 10)) as [Hd Hv]; [apply Z.mod_pos_bound; lia|].
    destruct (n <? 10) eqn:E.
    + apply Z.ltb_lt in E. exists 10. intros a. cbn [digits_value].
      rewrite Hd, Hv. rewrite Z.mod_small by lia. f_equal. lia.
    + apply Z.ltb_ge in E.
      assert (Hq : 0 <= n / 10 < 10 ^ Z.of_nat f).
      { split; [apply Z.div_pos; lia|].
        apply Z.div_lt_upper_bound; [lia|].
        rewrite Nat2Z.inj_succ, Z.pow_succ_r in Hn by lia. lia. }
      destruct (IH (n / 10) (digit_char false (n mod 10) :: acc) Hq) as [p Hp].
      exists (10 * p). intros a. rewrite Hp. cbn [digits_value].
      rewrite Hd, Hv. f_equal.
      pose proof (Z.div_mod n 10 ltac:(lia)). lia.
Qed.

Lemma digits_loop_length (fuel : nat) (n : Z) (acc : str) :
  (List.length acc <= List.length (digits_loop fuel 10 false n acc))%nat.
Proof.
  revert n acc. induction fuel as [|f IH]; intros n acc; simpl; [lia|].
  destruct (n <? 10); simpl; [lia|].
  etransitivity; [| apply IH]. simpl. lia.
Qed.

Lemma digits_all_digits (n : Z) : Forall (fun c => is_digit c = true) (digits n).
Proof. apply digits_loop_all_digits. constructor. Qed.

Lemma digits_nonempty (n : Z) : digits n <> [].
Proof.
  unfold digits, digits_base. cbn [digits_loop].
  destruct (n <? 10); [discriminate|].
  intros H.
  pose proof (digits_loop_length (Z.to_nat (Z.log2 n)) (n / 10)
                [digit_char false (n mod 10)]) as L.
  rewrite H in L. simpl in L. lia.
Qed.

Lemma digits_value_digits (n : Z) : 0 <= n -> digits_value 0 (digits n) = Some n.
Proof.
  intros Hn. unfold digits, digits_base.
  destruct (digits_loop_value (S (Z.to_nat (Z.log2 n))) n []) as [p Hp].
  - split; [exact Hn|].
    rewrite Nat2Z.inj_succ, Z2Nat.id by apply Z.log2_nonneg.
    destruct (Z.eq_dec n 0) as [->|Hz]; [reflexivity|].
    pose proof (Z.log2_spec n ltac:(lia)) as [_ Hl].
    eapply Z.lt_le_trans; [exact Hl|].
    apply Z.pow_le_mono_l. lia.
  - rewrite Hp. cbn [digits_value]. f_equal; lia.
Qed.

Lemma is_digit_not_space (c : char) : is_digit c = true -> is_space c = false.
Proof.
  unfold is_digit, is_space. intros H.
  apply andb_true_iff in H. destruct H as [H1 H2].
  apply N.leb_le in H1. apply N.leb_le in H2.
  apply orb_false_iff. split.
  - apply N.eqb_neq. lia.
  - apply andb_false_iff. right. apply N.leb_gt. lia.
Qed.

Lemma lstrip_digits (s : str) :
  Forall (fun c => is_digit c = true) s -> lstrip s = s.
Proof.
  intros H. destruct H as [|c s Hc Hs]; [reflexivity|].
  cbn [lstrip]. rewrite (is_digit_not_space c Hc). reflexivity.
Qed.

Lemma strip_digits (s : str) :
  Forall (fun c => is_digit c = true) s -> strip s = s.
Proof.
  intros H. unfold strip. rewrite (lstrip_digits s H).
  rewrite lstrip_digits by (apply Forall_rev; exact H).
  apply rev_involutive.
Qed.

Lemma strip_minus_digits (s : str) :
  Forall (fun c => is_digit c = true) s -> s <> [] ->
  strip (45%N :: s) = 45%N :: s.
Proof.
  intros H Hne. unfold strip, str, char in *.
  change (lstrip (45%N :: s)) with (45%N :: s).
  assert (Hr : lstrip (rev (45%N :: s)) = rev (45%N :: s)).
  { cbn [rev]. destruct (rev s) as [|c t] eqn:E.
    - apply (f_equal (@rev N)) in E. rewrite rev_involutive in E. contradiction.
    - assert (Hc : is_digit c = true).
      { pose proof (Forall_rev H) as Hf. rewrite E in Hf. inversion Hf. assumption. }
      rewrite ?E. cbn [app lstrip]. rewrite (is_digit_not_space c Hc). reflexivity. }
  rewrite Hr. apply rev_involutive.
Qed.

Lemma split_sign_digits (s : str) :
  Forall (fun c => is_digit c = true) s -> split_sign s = (false, s).
Proof.
  intros H. destruct H as [|c s Hc Hs]; [reflexivity|].
  unfold split_sign. unfold is_digit in Hc.
  apply andb_true_iff in Hc. destruct Hc as [H1 H2].
  apply N.leb_le in H1. apply N.leb_le in H2.
  destruct (c =? 45)%N eqn:E1; [apply N.eqb_eq in E1; lia|].
  destruct (c =? 43)%N eqn:E2; [apply N.eqb_eq in E2; lia|].
  reflexivity.
Qed.

Lemma parse_digits_digits (n : Z) : 0 <= n -> parse_digits (digits n) = Some n.
Proof.
  intros Hn. unfold parse_digits.
  destruct (digits n) eqn:E; [exfalso; exact (digits_nonempty n E)|].
  rewrite <- E. apply digits_value_digits. exact Hn.
Qed.


(** A run of characters without a newline stays on the current line. *)
Lemma split_lines_app (s rest cur : str) :
  Forall (fun c => (c =? 10)%N = false) s ->
  split_lines cur (s ++ rest) = split_lines (rev s ++ cur) rest.
Proof.
  intros H. revert cur. induction H as [|c s Hc Hs IH]; intros cur; [reflexivity|].
  cbn [app split_lines rev]. rewrite Hc. rewrite IH. rewrite <- app_assoc. reflexivity.
Qed.

(** The text of an integer holds no newline. *)
Lemma int_str_one_line (n : Z) : Forall (fun c => (c =? 10)%N = false) (int_str n).
Proof.
  assert (D : forall m, Forall (fun c => (c =? 10)%N = false) (digits m)).
  { intros m. eapply Forall_impl; [| apply digits_all_digits].
    intros c Hc. unfold is_digit in Hc. apply andb_true_iff in Hc.
    destruct Hc as [H1 _]. apply N.leb_le in H1. apply N.eqb_neq. lia. }
  unfold int_str. destruct (n <? 0); [| apply D].
  constructor; [reflexivity | apply D].
Qed.

Lemma split_lines_segments (p a d b rest : str) :
  Forall (fun c => (c =? 10)%N = false) p ->
  Forall (fun c => (c =? 10)%N = false) a ->
  Forall (fun c => (c =? 10)%N = false) d ->
  Forall (fun c => (c =? 10)%N = false) b ->
  split_lines [] (p ++ a ++ d ++ b ++ 10%N :: rest)
  = (p ++ a ++ d ++ b) :: split_lines [] rest.
Proof.
  intros Hp Ha Hd Hb.
  rewrite !split_lines_app by assumption.
  cbn [split_lines N.eqb Pos.eqb]. f_equal.
  rewrite !rev_app_distr, !rev_involutive, <- !app_assoc. reflexivity.
Qed.

(** X2: in every world the greeting script writes exactly six lines: the
    four fixed ones, a blank line, and [You are using Python] followed by
    the major and minor version of the interpreter, separated by a dot. *)
Theorem hello_main_lines (w : World) :
  lines (stdout hello.main w)
  = [u "Hello, World!"; u "Welcome to Python 3.14!"; u "Hello, Python Learner!";
     u "2 + 2 = 4"; [];
     u "You are using Python " ++ int_str (fst (version_info w)) ++ u "."
       ++ int_str (snd (version_info w))].
Proof.
  unfold stdout. rewrite hello_main_run. cbn [fst].
  pose proof (int_str_one_line (fst (version_info w))) as Ha.
  pose proof (int_str_one_line (snd (version_info w))) as Hb.
  revert Ha Hb.
  generalize (int_str (fst (version_info w))) (int_str (snd (version_info w))).
  intros a b Ha Hb. unfold lines.
  assert (P : forall q,
    split_lines []
      (unlines ["Hello, World!"; "Welcome to Python 3.14!";
                "Hello, Python Learner!"; "2 + 2 = 4"]%string ++ 10%N :: q)
    = [u "Hello, World!"; u "Welcome to Python 3.14!"; u "Hello, Python Learner!";
       u "2 + 2 = 4"; []] ++ split_lines [] q) by (intros q; reflexivity).
  assert (E1 : u "\nYou are using Python " = 10%N :: u "You are using Python ")
    by (vm_compute; reflexivity).
  assert (E2 : u "\n" = [10%N]) by (vm_compute; reflexivity).
  rewrite E1, E2, <- app_comm_cons, P.
  pose proof (split_lines_segments (u "You are using Python ") a (u ".") b []) as S.
  unfold str, char in *.
  rewrite S;
    [ reflexivity
    | vm_compute; repeat constructor
    | assumption
    | vm_compute; repeat constructor
    | assumption ].
Qed.

(** ** The progress bar *)

Lemma len_str_mul_char_max (c : char) (n : Z) : len (str_mul [c] n) = Z.max 0 n.
Proof. rewrite str_mul_char. unfold len. rewrite repeat_length. lia. Qed.


Lemma percent_in_range (i : Z) :
  0 <= i <= 100 -> In i (map Z.of_nat (seq 0 101)).
Proof.
  intros H. apply in_map_iff. exists (Z.to_nat i). split; [lia|].
  apply in_seq. lia.
Qed.

(** The spec [>3] right-aligns an integer in a field of three
    characters, and leaves a longer one as it is. *)
Lemma format_int_right3 (n : Z) :
  format_int n (u ">3") = Ok (repeat 32%N (3 - List.length (int_str n)) ++ int_str n).
Proof.
  unfold format_int.
  let v := eval vm_compute in (parse_spec true (u ">3")) in
  change (parse_spec true (u ">3")) with v.
  cbv beta iota zeta delta
    [bind Monad_result is_float_type type_is fs_type orb format_int_spec fs_prec fs_sep].
  unfold pad, sign_str. cbv beta iota zeta delta [fs_width fs_align fs_sign fs_fill].
  rewrite str_mul_char. f_equal.
  assert (E : (if n <? 0 then u "-" else []) ++ digits (Z.abs n) = int_str n).
  { unfold int_str. destruct (n <? 0) eqn:Hn.
    - apply Z.ltb_lt in Hn. rewrite Z.abs_neq by lia. reflexivity.
    - apply Z.ltb_ge in Hn. rewrite Z.abs_eq by lia. reflexivity. }
  rewrite <- E. rewrite length_app. f_equal.
  apply f_equal. unfold len, str, char. lia.
Qed.


(** X8: for every percentage from 0 to 100, the frame is 58 characters
    long and holds no newline, so each frame overwrites the one before it
    completely. *)
Theorem progress_frames_same_length (i : Z) (w : World) :
  0 <= i <= 100 ->
  len (stdout (string_formatting.progress_frame i) w) = 58
  /\ existsb (N.eqb 10) (stdout (string_formatting.progress_frame i) w) = false.
Proof.
  intros H.
  assert (A : forallb (fun j =>
      (len (stdout (string_formatting.progress_frame j) w) =? 58)
      && negb (existsb (N.eqb 10) (stdout (string_formatting.progress_frame j) w)))
    (map Z.of_nat (seq 0 101)) = true) by (vm_compute; reflexivity).
  rewrite forallb_forall in A. specialize (A i (percent_in_range i H)).
  apply andb_true_iff in A. destruct A as [A1 A2].
  split.
  - apply Z.eqb_eq. exact A1.
  - apply negb_true_iff. exact A2.
Qed.

Lemma progress_frames_same_length_witness :
  0 <= 37 <= 100
  /\ len (stdout (string_formatting.progress_frame 37) world0) = 58.
Proof.
  assert (H : 0 <= 37 <= 100) by lia.
  exact (conj H (proj1 (progress_frames_same_length 37 world0 H))).
Defined.

(** ** The two drivers *)

(** X4: [main] of the types demo writes its framed title, then the
    output of the six topic functions, each once and in source order, then
    its closing lines. *)
Theorem types_demo_main_sections (w : World) :
  stdout types_demo.main w
  = types_banner
    ++ stdout types_demo.demo_integers w
    ++ stdout types_demo.demo_floats w
    ++ stdout types_demo.demo_strings w
    ++ stdout types_demo.demo_booleans w
    ++ stdout types_demo.demo_type_conversion w
    ++ stdout types_demo.demo_generics w
    ++ types_footer.
Proof. vm_compute. reflexivity. Qed.

(** X5: in every world, [main] of the formatting guide writes its framed
    title, then the output of the six topic functions, each once and in
    source order, then its closing lines. *)
Theorem string_formatting_main_sections (w : World) :
  stdout string_formatting.main w
  = formatting_banner
    ++ stdout string_formatting.basic_formatting w
    ++ stdout string_formatting.number_formatting w
    ++ stdout string_formatting.alignment_formatting w
    ++ stdout string_formatting.advanced_formatting w
    ++ stdout string_formatting.practical_examples w
    ++ stdout string_formatting.comparison_example w
    ++ formatting_footer.
Proof.
  unfold stdout at 5. rewrite advanced_formatting_run. cbn [fst].
  unfold stdout at 1.
  assert (M : exists out,
    string_formatting.main w = (out, Ok tt)
    /\ out = formatting_banner
    ++ stdout string_formatting.basic_formatting w
    ++ stdout string_formatting.number_formatting w
    ++ stdout string_formatting.alignment_formatting w
    ++ (advanced_head ++ datetime_text (now w) ++ advanced_tail)
    ++ stdout string_formatting.practical_examples w
    ++ stdout string_formatting.comparison_example w
    ++ formatting_footer).
  { eexists. split.
    - unfold string_formatting.main. repeat run_step run_call.
      vm_compute; reflexivity.
    - generalize (datetime_text (now w)). intros t. vm_compute. reflexivity. }
  destruct M as [out [M1 M2]]. rewrite M1. cbn [fst]. exact M2.
Qed.

(** ** The invoice loop *)

(** Converting an integer to a float fails with [OverflowError] only. *)
Lemma float_of_int_raise (n : Z) (e : exn) :
  float_of_int n = Raise e -> e = OverflowError.
Proof.
  unfold float_of_int. destruct (binary_normalize prec emax n 0 false);
    intros H; congruence.
Qed.

Lemma nmul_int_float (n : Z) (x : float) :
  match nmul (Int n) (Float x) with
  | Ok s => exists y, s = Float y
  | Raise e => e = OverflowError
  end.
Proof.
  unfold nmul, arith, to_float. cbn [bind Monad_result ret].
  destruct (float_of_int n) eqn:E.
  - eexists. reflexivity.
  - eapply float_of_int_raise. exact E.
Qed.

Lemma nadd_float (s : number) (x : float) :
  match nadd s (Float x) with
  | Ok s' => exists y, s' = Float y
  | Raise e => e = OverflowError
  end.
Proof.
  unfold nadd, arith, to_float. destruct s as [n|y]; cbn [bind Monad_result ret].
  - destruct (float_of_int n) eqn:E.
    + eexists. reflexivity.
    + eapply float_of_int_raise. exact E.
  - eexists. reflexivity.
Qed.

Ltac eval_spec b s :=
  let v := eval vm_compute in (parse_spec b (u s)) in
  change (parse_spec b (u s)) with v.

Lemma format_str_left25 (s : str) : exists r, format_str s (u "<25") = Ok r.
Proof.
  unfold format_str. eval_spec false "<25"%string.
  cbv beta iota zeta delta
    [bind Monad_result fs_sign fs_alt fs_align fs_sep fs_type fs_prec].
  eexists. reflexivity.
Qed.

Lemma format_int_right5 (n : Z) : exists r, format_int n (u ">5") = Ok r.
Proof.
  unfold format_int. eval_spec true ">5"%string.
  cbv beta iota zeta delta
    [bind Monad_result is_float_type type_is fs_type orb format_int_spec fs_prec fs_sep].
  eexists. reflexivity.
Qed.

Lemma format_float_right9_2f (x : float) : exists r, format_float x (u ">9.2f") = Ok r.
Proof.
  unfold format_float. eval_spec true ">9.2f"%string.
  cbv beta iota zeta delta
    [bind Monad_result format_float_spec type_is fs_type fs_prec fs_sep fs_alt].
  change (str_eqb [102%N] (u "f")) with true.
  cbv beta iota. eexists. reflexivity.
Qed.

(** A row of the invoice table can always be formatted. *)
Lemma invoice_row_line (item : str) (qty : Z) (price total : float) (w : World) :
  exists text,
    printf [fld item "<25"; Lit " "; fld qty ">5"; Lit " $"; fld price ">9.2f";
            Lit " $"; fld (Float total) ">9.2f"] w = (text, Ok tt).
Proof.
  unfold printf, fld, lift, print, print_end.
  cbn [fstring py_format PyObject_str PyObject_int PyObject_float PyObject_number].
  destruct (format_str_left25 item) as [r1 ->].
  destruct (format_int_right5 qty) as [r2 ->].
  destruct (format_float_right9_2f price) as [r3 ->].
  destruct (format_float_right9_2f total) as [r4 ->].
  cbn [bind Monad_result Monad_Py ret]. eexists. reflexivity.
Qed.

(** One pass of the invoice loop leaves a float subtotal, or raises
    [OverflowError]. *)
Lemma invoice_row_step (s : number) (item : str) (qty : Z) (price : float) (w : World) :
  match
    snd ((total <- lift (nmul (Int qty) (Float price)) ;;
          subtotal <- lift (nadd s total) ;;
          printf [fld item "<25"; Lit " "; fld qty ">5"; Lit " $"; fld price ">9.2f";
                  Lit " $"; fld total ">9.2f"] ;;
          ret subtotal) w)
  with
  | Ok s' => exists y, s' = Float y
  | Raise e => e = OverflowError
  end.
Proof.
  cbn [bind Monad_Py lift].
  pose proof (nmul_int_float qty price) as M.
  destruct (nmul (Int qty) (Float price)) as [t|e]; [| exact M].
  destruct M as [tx ->].
  pose proof (nadd_float s tx) as A.
  destruct (nadd s (Float tx)) as [s'|e]; [| exact A].
  destruct (invoice_row_line item qty price tx w) as [text ->].
  cbn [ret Monad_Py snd]. exact A.
Qed.

Lemma for_fold_cons {A S : Type} (x : A) (xs : list A) (s : S)
    (body : S -> A -> Py S) (w : World) :
  for_fold (x :: xs) s body w
  = match body s x w with
    | (out, Ok s') => let '(out', r) := for_fold xs s' body w in (out ++ out', r)
    | (out, Raise e) => (out, Raise e)
    end.
Proof. reflexivity. Qed.


(** ** The formatting methods compared *)

Lemma format_value_str (s : str) : format_value (VStr s) [] = Ok s.
Proof. apply format_str_empty. Qed.

Lemma format_value_int (n : Z) : format_value (VInt n) [] = Ok (int_str n).
Proof. apply format_int_empty. Qed.

Ltac run_format :=
  cbv -[int_str format_value format_str format_int];
  repeat (first [ rewrite format_value_str | rewrite format_value_int
                | rewrite format_str_empty | rewrite format_int_empty ];
          cbv -[int_str format_value format_str format_int]);
  reflexivity.


(** ** Slices and truth values *)

Lemma skipn_nth {A : Type} (l : list A) (a : nat) :
  (a < List.length l)%nat ->
  exists x, nth_error l a = Some x /\ skipn a l = x :: skipn (S a) l.
Proof.
  revert a. induction l as [|y l IH]; intros a H; simpl in H; [lia|].
  destruct a as [|a].
  - exists y. split; reflexivity.
  - destruct (IH a ltac:(lia)) as [x [H1 H2]].
    exists x. split; [exact H1|]. exact H2.
Qed.

(** Picking [k] consecutive items from index [a] on. *)
Lemma picks_forward {A : Type} (l : list A) (k a : nat) :
  (a + k <= List.length l)%nat ->
  flat_map (fun i => pick l (a + i)) (seq 0 k) = firstn k (skipn a l).
Proof.
  revert a. induction k as [|k IH]; intros a H; [reflexivity|].
  cbn [seq flat_map]. rewrite <- seq_shift, flat_map_concat_map, map_map,
    <- flat_map_concat_map.
  destruct (skipn_nth l a ltac:(lia)) as [x [H1 H2]].
  rewrite H2. cbn [firstn]. unfold pick at 1. rewrite Nat.add_0_r, H1.
  cbn [app]. f_equal.
  rewrite <- (IH (S a)) by lia.
  apply flat_map_ext. intros i. f_equal. lia.
Qed.

(** Picking every item from the last to the first. *)
Lemma picks_backward {A : Type} (l : list A) :
  flat_map (fun i => pick l (List.length l - 1 - i)) (seq 0 (List.length l)) = rev l.
Proof.
  induction l as [|x l IH]; [reflexivity|].
  cbn [List.length rev]. rewrite seq_S, flat_map_app. cbn [flat_map Nat.add].
  rewrite app_nil_r. f_equal.
  - rewrite <- IH. rewrite !flat_map_concat_map. f_equal.
    apply map_ext_in. intros i Hi. apply in_seq in Hi.
    unfold pick. replace (S (List.length l) - 1 - i)%nat with (S (List.length l - 1 - i)) by lia.
    reflexivity.
  - unfold pick. replace (S (List.length l) - 1 - List.length l)%nat with 0%nat by lia.
    reflexivity.
Qed.

Lemma clip_range (n : Z) (bound : option Z) (default : Z) :
  0 <= n -> 0 <= default <= n -> 0 <= clip n 1 bound default <= n.
Proof.
  intros Hn Hd. unfold clip. destruct bound as [b|]; [| exact Hd].
  cbn [Z.ltb Z.compare].
  destruct (b <? 0) eqn:E1.
  - destruct (b + n <? 0) eqn:E2; [lia|].
    destruct (n <=? b + n) eqn:E3; [lia|].
    apply Z.ltb_ge in E2. apply Z.leb_gt in E3. lia.
  - destruct (b <? 0) eqn:E2; [discriminate|].
    destruct (n <=? b) eqn:E3; [lia|].
    apply Z.ltb_ge in E2. apply Z.leb_gt in E3. lia.
Qed.

Lemma slice_forward {A : Type} (l : list A) (start stop : option Z) :
  slice l start stop None
  = Ok (firstn (Z.to_nat (clip (len l) 1 stop (len l) - clip (len l) 1 start 0))
          (skipn (Z.to_nat (clip (len l) 1 start 0)) l)).
Proof.
  unfold slice. cbn [Z.eqb Z.ltb Z.compare]. f_equal.
  pose proof (len_nonneg l) as Hn.
  pose proof (clip_range (len l) start 0 Hn ltac:(lia)) as Hlo.
  pose proof (clip_range (len l) stop (len l) Hn ltac:(lia)) as Hhi.
  set (lo := clip (len l) 1 start 0) in *.
  set (hi := clip (len l) 1 stop (len l)) in *.
  assert (E : Z.to_nat (if lo <? hi then (hi - lo - 1) / 1 + 1 else 0)
              = Z.to_nat (hi - lo)).
  { destruct (lo <? hi) eqn:C.
    - rewrite Z.div_1_r. f_equal. lia.
    - apply Z.ltb_ge in C. lia. }
  rewrite E.
  destruct (Z.le_gt_cases hi lo) as [C|C].
  - replace (Z.to_nat (hi - lo)) with 0%nat by lia. reflexivity.
  - rewrite <- (picks_forward l (Z.to_nat (hi - lo)) (Z.to_nat lo))
      by (unfold len in *; lia).
    apply flat_map_ext. intros i. unfold pick.
    replace (Z.to_nat (lo + Z.of_nat i * 1)) with (Z.to_nat lo + i)%nat by lia.
    reflexivity.
Qed.

Lemma slice_reversed {A : Type} (l : list A) :
  slice l None None (Some (-1)) = Ok (rev l).
Proof.
  unfold slice, clip. cbn [Z.eqb Z.ltb Z.compare Z.opp]. f_equal.
  rewrite <- picks_backward.
  assert (E : Z.to_nat (if -1 <? len l - 1 then (len l - 1 - -1 - 1) / 1 + 1 else 0)
              = List.length l).
  { unfold len. destruct (-1 <? Z.of_nat (List.length l) - 1) eqn:C.
    - rewrite Z.div_1_r. lia.
    - apply Z.ltb_ge in C. lia. }
  rewrite E. rewrite !flat_map_concat_map. f_equal.
  apply map_ext_in. intros i Hi. apply in_seq in Hi. unfold pick, len.
  replace (Z.to_nat (Z.of_nat (List.length l) - 1 + Z.of_nat i * -1))
    with (List.length l - 1 - i)%nat by lia.
  reflexivity.
Qed.

(** X11: a slice without a step never fails: it drops the items before
    the clipped start and keeps those up to the clipped stop.  For every
    sequence, the three slices of [demo_strings] are its first six items
    (all of them when it is shorter), its last eleven items (all of them
    when it is shorter), and its reversal. *)
Theorem slices_clip {A : Type} (l : list A) (start stop : option Z) :
  slice l start stop None
  = Ok (firstn (Z.to_nat (clip (len l) 1 stop (len l) - clip (len l) 1 start 0))
          (skipn (Z.to_nat (clip (len l) 1 start 0)) l))
  /\ slice l None (Some 6) None = Ok (firstn 6 l)
  /\ slice l (Some (-11)) None None = Ok (skipn (List.length l - 11) l)
  /\ slice l None None (Some (-1)) = Ok (rev l).
Proof.
  split; [apply slice_forward | split; [| split]].
  - rewrite slice_forward. f_equal. unfold clip, len. cbn [Z.ltb Z.compare].
    rewrite Z.sub_0_r. cbn [Z.to_nat skipn].
    destruct (Z.of_nat (List.length l) <=? 6) eqn:C.
    + apply Z.leb_le in C. rewrite Nat2Z.id.
      rewrite !firstn_all2 by lia. reflexivity.
    + reflexivity.
  - rewrite slice_forward. f_equal. unfold clip, len. cbn [Z.ltb Z.compare].
    set (n := List.length l).
    destruct (-11 + Z.of_nat n <? 0) eqn:C1.
    + apply Z.ltb_lt in C1. rewrite Z.sub_0_r, Nat2Z.id.
      replace (n - 11)%nat with 0%nat by lia. cbn [Z.to_nat skipn].
      apply firstn_all.
    + apply Z.ltb_ge in C1.
      destruct (Z.of_nat n <=? -11 + Z.of_nat n) eqn:C2; [apply Z.leb_le in C2; lia|].
      replace (Z.to_nat (-11 + Z.of_nat n)) with (n - 11)%nat by lia.
      apply firstn_all2. rewrite length_skipn. fold n. lia.
  - apply slice_reversed.
Qed.

Lemma len_zero {A : Type} (l : list A) : (len l =? 0) = true <-> l = [].
Proof.
  unfold len. destruct l; simpl; split; intros H; try reflexivity; try discriminate.
Qed.

(** X12: the list of falsy values in [demo_booleans] is complete for the
    seven kinds of value it shows: a value is falsy if and only if it is
    in that list or is the float negative zero. *)
Theorem falsy_values_exhaustive (v : value) :
  truth v = false
  <-> In v types_demo.falsy_values \/ v = VFloat (S754_zero true).
Proof.
  unfold types_demo.falsy_values.
  change (flit "0.0") with (S754_zero false). change (u "") with (@nil char).
  split.
  - intros H. destruct v as [|b|n|x|s|items|entries]; cbn [truth] in H.
    + simpl. tauto.
    + subst b. simpl. tauto.
    + apply negb_false_iff, Z.eqb_eq in H. subst n. simpl. tauto.
    + apply negb_false_iff in H.
      destruct x as [s|s| |s m e];
        [ destruct s; [right; reflexivity | simpl; tauto]
        | destruct s; discriminate H
        | discriminate H
        | destruct s; discriminate H ].
    + apply negb_false_iff, len_zero in H. subst s. simpl. tauto.
    + apply negb_false_iff, len_zero in H. subst items. simpl. tauto.
    + apply negb_false_iff, len_zero in H. subst entries. simpl. tauto.
  - intros [H | ->]; [| reflexivity].
    simpl in H.
    repeat (destruct H as [<- | H]; [reflexivity |]). contradiction.
Qed.

(** ** Comparison and integer division *)

(** X13: in the stock table the test [change > 0] holds exactly for the
    positive floats (finite or infinite); so zero of either sign, every
    negative change and NaN get no plus sign. *)
Theorem stock_sign_plus_iff_positive (change : float) :
  ngt (Float change) (Int 0) = true
  <-> (exists m e, change = S754_finite false m e) \/ change = S754_infinity false.
Proof.
  unfold ngt, ncompare, compare_float_int.
  destruct change as [s|s| |s m e].
  - cbn. split; [discriminate|]. intros [[m [e H]]|H]; discriminate H.
  - destruct s; cbn; split.
    + discriminate.
    + intros [[m [e H]]|H]; discriminate H.
    + intros _. right. reflexivity.
    + intros _. reflexivity.
  - cbn. split; [discriminate|]. intros [[m [e H]]|H]; discriminate H.
  - assert (P : 0 < 2 ^ e \/ e < 0).
    { destruct (Z.lt_ge_cases e 0); [right; assumption|].
      left. apply Z.pow_pos_nonneg; lia. }
    destruct s.
    + split.
      * destruct (0 <=? e) eqn:E.
        -- apply Z.leb_le in E.
           assert (0 < 2 ^ e) by (apply Z.pow_pos_nonneg; lia).
           destruct (Z.compare_spec (Z.neg m * 2 ^ e) 0); try discriminate. 
           pose proof (Pos2Z.neg_is_neg m). nia.
        -- cbn. discriminate.
      * intros [[m' [e' H]]|H]; discriminate H.
    + split.
      * intros _. left. exists m, e. reflexivity.
      * intros _. destruct (0 <=? e) eqn:E.
        -- apply Z.leb_le in E.
           assert (0 < 2 ^ e) by (apply Z.pow_pos_nonneg; lia).
           destruct (Z.compare_spec (Z.pos m * 2 ^ e) 0); try reflexivity;
             pose proof (Pos2Z.is_pos m); nia.
        -- reflexivity.
Qed.

(** X14: for all integers [a] and [b], [a // b] and [a % b] raise
    [ZeroDivisionError] exactly when [b] is zero; otherwise
    [a = b * (a // b) + a % b] and the remainder lies between zero and
    [b], with the sign of [b]. *)
Theorem floor_division_and_modulo (a b : Z) :
  match floordiv a b, mod_ a b with
  | Ok q, Ok r => b <> 0 /\ a = b * q + r /\ (0 <= r < b \/ b < r <= 0)
  | Raise e1, Raise e2 => b = 0 /\ e1 = ZeroDivisionError /\ e2 = ZeroDivisionError
  | _, _ => False
  end.
Proof.
  unfold floordiv, mod_. destruct (b =? 0) eqn:E.
  - apply Z.eqb_eq in E. repeat split; assumption || reflexivity.
  - apply Z.eqb_neq in E. split; [exact E|]. split.
    + apply Z.div_mod. exact E.
    + destruct (Z.lt_ge_cases 0 b).
      * left. apply Z.mod_pos_bound. lia.
      * right. apply Z.mod_neg_bound. lia.
Qed.
